(** * scripts/reviewer.py: the pull-request review pipeline

    A shallow embedding of [scripts/reviewer.py] and the properties of its
    pipeline: event filter, diff fetch, prompt construction, verdict
    classification and reporting.

    Conventions.
    - A Python [str] is the list of its code points ([pystr]); [len], slicing
      and [in] therefore count code points, as Python does.
    - A decoded JSON document is a [json] value; a Python [dict] is a [gmap].
    - Everything outside the script (the process environment, [json.loads],
      [str()] of non-string values, [requests], the generative model) is a
      field of the record [World].
    - An execution is the list of outbound calls it made, in order, together
      with the way it ended.  Writes to standard output are not part of the
      embedding. *)

From Stdlib Require Import ZArith NArith List Bool Lia.
From Stdlib Require Import Strings.Byte.
From Stdlib Require Import Floats.SpecFloat.
From stdpp Require Import base option list gmap.

Import ListNotations.
Local Open Scope Z_scope.
Set Warnings "-register-all,-via-type-mismatch".

(** ** Python strings *)

(** A Python string: the sequence of its Unicode code points. *)
Abbreviation pystr := (list N).

(** The string literals of the script are written below as they appear in
    the source file, which is UTF-8 encoded: a literal stands for the list
    of the code points that its bytes encode. *)
Module Utf8.

Inductive points : Set :=
| pnil
| pcons (c : N) (l : points).

Fixpoint decode (bs : list N) : points :=
  let cont (b : N) := N.land b 63 in
  match bs with
  | [] => pnil
  | b0 :: r0 =>
    if (b0 <? 128)%N then pcons b0 (decode r0)
    else match r0 with
    | [] => pcons b0 pnil
    | b1 :: r1 =>
      if (b0 <? 224)%N then
        pcons (N.shiftl (N.land b0 31) 6 + cont b1)%N (decode r1)
      else match r1 with
      | [] => pcons b0 (pcons b1 pnil)
      | b2 :: r2 =>
        if (b0 <? 240)%N then
          pcons (N.shiftl (N.land b0 15) 12 + N.shiftl (cont b1) 6
                 + cont b2)%N (decode r2)
        else match r2 with
        | [] => pcons b0 (pcons b1 (pcons b2 pnil))
        | b3 :: r3 =>
          pcons (N.shiftl (N.land b0 7) 18 + N.shiftl (cont b1) 12
                 + N.shiftl (cont b2) 6 + cont b3)%N (decode r3)
        end
      end
    end
  end.

Definition parse (bs : list Byte.byte) : points :=
  decode (map Byte.to_N bs).

(** Literals are shown as lists of code points. *)
Definition print (p : points) : option (list Byte.byte) := None.

End Utf8.

Declare Scope pystr_scope.
Delimit Scope pystr_scope with py.
String Notation list Utf8.parse Utf8.print
  (via Utf8.points mapping [[nil] => Utf8.pnil, [cons] => Utf8.pcons])
  : pystr_scope.
Local Open Scope pystr_scope.

Module PyStr.

(** The line feed, written [\n] in the source. *)
Definition LF : pystr := [10%N].

(** [needle] occurs at the very start of [hay]. *)
Fixpoint starts_with (needle hay : pystr) : bool :=
  match needle, hay with
  | [], _ => true
  | _ :: _, [] => false
  | a :: needle', b :: hay' => (a =? b)%N && starts_with needle' hay'
  end.

(** Python's [needle in hay] on two strings: substring search. *)
Fixpoint str_contains (needle hay : pystr) : bool :=
  starts_with needle hay ||
  match hay with
  | [] => false
  | _ :: hay' => str_contains needle hay'
  end.

(** What [needle in hay] means: [needle] is a contiguous part of [hay]. *)
Definition Substring (needle hay : pystr) : Prop :=
  exists pre post, hay = pre ++ needle ++ post.

(** [needle] and [s] differ at a position that both have. *)
Fixpoint clashes (needle s : pystr) : bool :=
  match needle, s with
  | a :: needle', b :: s' => negb (a =? b)%N || clashes needle' s'
  | _, _ => false
  end.

(** No occurrence of [needle] can start inside [pre], whatever follows. *)
Fixpoint never_starts_in (needle pre : pystr) : bool :=
  match pre with
  | [] => true
  | _ :: pre' => clashes needle pre && never_starts_in needle pre'
  end.

(** [str.isspace] for one code point (CPython's [_PyUnicode_IsWhitespace]). *)
Definition isspace (c : N) : bool :=
  ((9 <=? c) && (c <=? 13) || (28 <=? c) && (c <=? 32)
   || (c =? 133) || (c =? 160) || (c =? 5760)
   || (8192 <=? c) && (c <=? 8202)
   || (c =? 8232) || (c =? 8233) || (c =? 8239) || (c =? 8287)
   || (c =? 12288))%N.

Fixpoint lstrip (s : pystr) : pystr :=
  match s with
  | [] => []
  | c :: s' => if isspace c then lstrip s' else s
  end.

Definition rstrip (s : pystr) : pystr := rev (lstrip (rev s)).

(** [s.strip()] with no argument. *)
Definition strip (s : pystr) : pystr := rstrip (lstrip s).

(** [len(s)]. *)
Definition len (s : pystr) : Z := Z.of_nat (length s).

(** [s[:n]] for a non-negative literal bound [n]. *)
Definition slice_to (n : Z) (s : pystr) : pystr := firstn (Z.to_nat n) s.

(** Truth value of a string: the empty string is false. *)
Definition truthy (s : pystr) : bool :=
  match s with [] => false | _ :: _ => true end.

End PyStr.
Import PyStr.

(** ** Values, the outside world and executions *)

(** A decoded JSON document, as [json.loads] builds it. *)
Inductive json : Type :=
| JNull
| JBool (b : bool)
| JInt (z : Z)
| JFloat (f : spec_float)
| JStr (s : pystr)
| JArr (l : list json)
| JObj (d : gmap pystr json).

(** An exception instance raised by a library: its class and its [str()]. *)
Record pyexception : Type := { exc_class : pystr; exc_str : pystr }.

(** The exceptions an execution can end with. *)
Inductive exc : Type :=
| KeyError (key : pystr)
| TypeError
| AttributeError
| LibraryError (e : pyexception).

(** [requests.Response], as far as the script reads it. *)
Record Response : Type := { status_code : Z; text : pystr }.

(** An outbound call. *)
Inductive call : Type :=
| HttpGet (url : json) (headers : gmap pystr pystr)
| HttpPost (url : json) (body : json) (headers : gmap pystr pystr)
| Generate (prompt : pystr).

(** Everything the script reads from or calls outside itself. *)
Record World : Type := {
  (** [os.environ.get] *)
  environ : pystr -> option pystr;
  (** [json.loads]; [None] stands for [json.JSONDecodeError] *)
  json_loads : pystr -> option json;
  (** [str(v)] for a value that is not a string *)
  builtin_str : json -> pystr;
  (** [requests.get(url, headers=...)] *)
  requests_get : json -> gmap pystr pystr -> pyexception + Response;
  (** [requests.post(url, json=..., headers=...)] *)
  requests_post : json -> json -> gmap pystr pystr -> pyexception + unit;
  (** [model.generate_content(prompt).text]; the left side is any
      [Exception] raised on the way *)
  generate_content : pystr -> pyexception + pystr
}.

(** How a computation ends. *)
Inductive outcome (A : Type) : Type :=
| Done (a : A)
| Raised (e : exc)
| Exited (code : Z).
Arguments Done {A} a.
Arguments Raised {A} e.
Arguments Exited {A} code.

(** A computation: the calls it made, in order, and its outcome. *)
Definition M (A : Type) : Type := list call * outcome A.

Definition ret {A} (a : A) : M A := ([], Done a).

Definition bind {A B} (m : M A) (k : A -> M B) : M B :=
  match m with
  | (t, Done a) => let '(t', r) := k a in (t ++ t', r)
  | (t, Raised e) => (t, Raised e)
  | (t, Exited c) => (t, Exited c)
  end.

Definition raise {A} (e : exc) : M A := ([], Raised e).

(** [sys.exit(code)] *)
Definition sys_exit {A} (code : Z) : M A := ([], Exited code).

Declare Scope py_scope.
Delimit Scope py_scope with pyM.
Notation "'let!' x ':=' m 'in' k" := (bind m (fun x => k))
  (at level 10, x name, m at level 100, k at level 200) : py_scope.
Local Open Scope py_scope.

Definition trace {A} (m : M A) : list call := fst m.
Definition result {A} (m : M A) : outcome A := snd m.

(** The exit status of the process for an outcome of the top level. *)
Definition exit_code (o : outcome unit) : Z :=
  match o with
  | Done _ => 0
  | Raised _ => 1
  | Exited c => c
  end.

(** ** Python operations on decoded values *)

(** [key in v] for a string [key]. *)
Definition py_in (key : pystr) (v : json) : M bool :=
  match v with
  | JObj d => ret (bool_decide (is_Some (d !! key)))
  | JArr l =>
    ret (existsb (fun x => match x with
                           | JStr s => bool_decide (s = key)
                           | _ => false
                           end) l)
  | JStr s => ret (str_contains key s)
  | _ => raise TypeError
  end.

(** [v.get(key)] *)
Definition py_get (v : json) (key : pystr) : M json :=
  match v with
  | JObj d => ret (default JNull (d !! key))
  | _ => raise AttributeError
  end.

(** [v[key]] for a string [key]. *)
Definition py_getitem (v : json) (key : pystr) : M json :=
  match v with
  | JObj d =>
    match d !! key with
    | Some x => ret x
    | None => raise (KeyError key)
    end
  | _ => raise TypeError
  end.

(** [v in names] for a list [names] of string literals. *)
Definition py_in_names (v : json) (names : list pystr) : bool :=
  match v with
  | JStr s => bool_decide (s ∈ names)
  | _ => false
  end.

(** [f"{v}"] *)
Definition py_format (w : World) (v : json) : pystr :=
  match v with
  | JStr s => s
  | _ => builtin_str w v
  end.

(** ** The script *)

(** The module-level names bound by section 1 of the script and read by
    its functions. *)
Record Globals : Type := {
  payload : json;
  GITHUB_TOKEN : pystr;
  GOOGLE_API_KEY : pystr
}.

(** The two verdict markers and the three outcomes of the test of step 6. *)
Definition REQUEST_CHANGES : pystr := "⚠️ **REQUEST CHANGES**".
Definition APPROVE : pystr := "✅ **APPROVE**".

Inductive Verdict : Type := Approved | ChangesRequested | Inconclusive.

Section Script.

Variable w : World.
Variable g : Globals.

(** The [headers] dict that [post_comment] and [update_pr_status] build. *)
Definition json_headers : gmap pystr pystr :=
  {[ "Authorization" := "token " ++ GITHUB_TOKEN g;
     "Accept" := "application/vnd.github.v3+json" ]}.

(** The [headers] dict of [get_pr_diff]. *)
Definition diff_headers : gmap pystr pystr :=
  {[ "Authorization" := "token " ++ GITHUB_TOKEN g;
     "Accept" := "application/vnd.github.v3.diff" ]}.

(** [requests.get]: the call is recorded, then the world answers. *)
Definition do_get (url : json) (headers : gmap pystr pystr) : M Response :=
  ([HttpGet url headers],
   match requests_get w url headers with
   | inl e => Raised (LibraryError e)
   | inr r => Done r
   end).

(** [requests.post] *)
Definition do_post (url body : json) (headers : gmap pystr pystr) : M unit :=
  ([HttpPost url body headers],
   match requests_post w url body headers with
   | inl e => Raised (LibraryError e)
   | inr u => Done u
   end).

Definition post_comment (comments_url : json) (body : pystr) : M unit :=
  let headers := json_headers in
  let final_body := body ++ LF ++ LF ++ "_— Reviewed by OS-Maintainer Bot 🤖_" in
  do_post comments_url (JObj {[ "body" := JStr final_body ]}) headers.

Definition update_pr_status (status_url : json) (state description : pystr)
  : M unit :=
  let headers := json_headers in
  let data : gmap pystr json :=
    {[ "state" := JStr state;
       "target_url" :=
         from_option JStr JNull (environ w "KESTRA_EXECUTION_URL");
       "description" := JStr description;
       "context" := JStr "OS-Maintainer / AI-Reviewer" ]} in
  do_post status_url (JObj data) headers.

Definition get_pr_diff (diff_url : json) : M (option pystr) :=
  let headers := diff_headers in
  let! response := do_get diff_url headers in
  ret (if status_code response =? 200 then Some (text response) else None).

(** The f-string of [analyze_code_with_gemini]. *)
Definition prompt_of (diff_text : pystr) (pr_title user : json) : pystr :=
  LF ++ "    You are 'OS-Maintainer', an expert Senior Software Engineer."
  ++ LF ++ "    Review PR from @" ++ py_format w user
  ++ ". Title: " ++ py_format w pr_title
  ++ ". Code: ```diff " ++ diff_text ++ "```"
  ++ LF ++ "    "
  ++ LF ++ "    Instructions: 1. Check for **Security Leaks** and **Logic Bugs**. 2. Be helpful. 3. Verdict: End with either '✅ **APPROVE**' or '⚠️ **REQUEST CHANGES**'."
  ++ LF ++ "    ".

(** The text returned by the [except] branch. *)
Definition ai_error_text (e : pyexception) : pystr :=
  "⚠️ **AI Error:** Could not analyze code. The model failed to respond. ("
  ++ exc_str e ++ ")".

Definition analyze_code_with_gemini (diff_text : pystr) (pr_title user : json)
  : M pystr :=
  let diff_text :=
    if len diff_text >? 30000
    then slice_to 30000 diff_text ++ LF ++ "... (Diff truncated)"
    else diff_text in
  let prompt := prompt_of diff_text pr_title user in
  ([Generate prompt],
   match generate_content w prompt with
   | inr response_text => Done response_text
   | inl e => Done (ai_error_text e)
   end).

(** The conditions of the [if]/[elif]/[else] of step 6, in their order. *)
Definition verdict (review : pystr) : Verdict :=
  if str_contains REQUEST_CHANGES review then ChangesRequested
  else if str_contains APPROVE review then Approved
  else Inconclusive.

Definition run : M unit :=
  (* 1. Validation *)
  let! has_pr := py_in "pull_request" (payload g) in
  if negb has_pr then ret tt else
  let! action := py_get (payload g) "action" in
  if negb (py_in_names action ["opened"; "reopened"; "synchronize"])
  then ret tt else
  (* 2. Extract Details *)
  let! pr := py_getitem (payload g) "pull_request" in
  let! diff_url := py_getitem pr "diff_url" in
  let! comments_url := py_getitem pr "comments_url" in
  let! statuses_url := py_getitem pr "statuses_url" in
  (* 3. Get Code *)
  let! code_diff := get_pr_diff diff_url in
  match code_diff with
  | None => ret tt
  | Some code_diff =>
    if negb (truthy code_diff) || negb (truthy (strip code_diff))
    then ret tt else
    (* 4. Analyze *)
    let! pr_title := py_getitem pr "title" in
    let! pr_user := py_getitem pr "user" in
    let! login := py_getitem pr_user "login" in
    let! review := analyze_code_with_gemini code_diff pr_title login in
    (* 5. Post Result *)
    let! _ := post_comment comments_url review in
    (* 6. Check Verdict *)
    match verdict review with
    | ChangesRequested =>
      update_pr_status statuses_url "failure"
        "AI Review failed: Changes Requested."
    | Approved =>
      update_pr_status statuses_url "success"
        "AI Review passed successfully."
    | Inconclusive =>
      update_pr_status statuses_url "error"
        "AI Review was inconclusive."
    end
  end.

End Script.

(** Truth value of an optional string read from the environment. *)
Definition env_truthy (v : option pystr) : bool :=
  match v with
  | None => false
  | Some s => truthy s
  end.

(** The module top level (section 1) followed by the call of [run]. *)
Definition main (w : World) : M unit :=
  let payload_json := environ w "GITHUB_PAYLOAD" in
  if negb (env_truthy payload_json) then sys_exit 1 else
  match json_loads w (default [] payload_json) with
  | None => sys_exit 1
  | Some payload =>
    let GITHUB_TOKEN := environ w "GITHUB_TOKEN" in
    let GOOGLE_API_KEY := environ w "GOOGLE_API_KEY" in
    if negb (env_truthy GITHUB_TOKEN) || negb (env_truthy GOOGLE_API_KEY)
    then sys_exit 1
    else run w {| payload := payload;
                  GITHUB_TOKEN := default [] GITHUB_TOKEN;
                  GOOGLE_API_KEY := default [] GOOGLE_API_KEY |}
  end.

(** ** Vocabulary of the statements *)

(** The stages a run goes through, as conditions on the event and on the
    answers of the world. *)

(** The event is a JSON object with a [pull_request] entry [pr] and an
    [action] among the three allowed ones. *)
Definition passes_filter (p pr : json) : Prop :=
  exists ev action,
    p = JObj ev /\ ev !! "pull_request" = Some pr /\
    ev !! "action" = Some (JStr action) /\
    action ∈ ["opened"; "reopened"; "synchronize"].

(** The event object has no [pull_request] key, or its [action] is not one
    of the three allowed ones. *)
Definition filtered_out (ev : gmap pystr json) : Prop :=
  ev !! "pull_request" = None \/
  ~ exists action,
      ev !! "action" = Some (JStr action) /\
      action ∈ ["opened"; "reopened"; "synchronize"].

(** The pull-request record carries the three resource locators. *)
Definition has_urls (pr diff_url comments_url statuses_url : json) : Prop :=
  exists d,
    pr = JObj d /\ d !! "diff_url" = Some diff_url /\
    d !! "comments_url" = Some comments_url /\
    d !! "statuses_url" = Some statuses_url.

(** The pull-request record carries a title and the login of its author. *)
Definition has_meta (pr pr_title login : json) : Prop :=
  exists d u,
    pr = JObj d /\ d !! "title" = Some pr_title /\
    d !! "user" = Some (JObj u) /\ u !! "login" = Some login.

(** A string that is empty or made of white space only. *)
Definition blank (s : pystr) : Prop := Forall (fun c => isspace c = true) s.

(** An environment variable that is unset or empty. *)
Definition missing (v : option pystr) : Prop := v = None \/ v = Some [].

(** Section 1 of the script went through and bound the globals [g]. *)
Definition loaded (w : World) (g : Globals) : Prop :=
  exists payload_json,
    environ w "GITHUB_PAYLOAD" = Some payload_json /\
    payload_json <> [] /\
    json_loads w payload_json = Some (payload g) /\
    environ w "GITHUB_TOKEN" = Some (GITHUB_TOKEN g) /\
    GITHUB_TOKEN g <> [] /\
    environ w "GOOGLE_API_KEY" = Some (GOOGLE_API_KEY g) /\
    GOOGLE_API_KEY g <> [].

(** The attribution that closes every comment. *)
Definition ATTRIBUTION : pystr :=
  LF ++ LF ++ "_— Reviewed by OS-Maintainer Bot 🤖_".

(** The notice that replaces the dropped part of a long diff. *)
Definition TRUNCATION_NOTICE : pystr := LF ++ "... (Diff truncated)".

(** The table of the status check: state and description per verdict. *)
Definition status_of (v : Verdict) : pystr * pystr :=
  match v with
  | ChangesRequested =>
    ("failure", "AI Review failed: Changes Requested.")
  | Approved => ("success", "AI Review passed successfully.")
  | Inconclusive => ("error", "AI Review was inconclusive.")
  end.

(** The run gets as far as step 4 with the diff [diff_text]: the event
    passed the filter and is complete, and the diff came back with status
    200 and is not blank. *)
Definition reviewable (w : World) (g : Globals)
    (diff_url comments_url statuses_url : json) (diff_text : pystr)
    (pr_title login : json) : Prop :=
  exists pr resp,
    passes_filter (payload g) pr /\
    has_urls pr diff_url comments_url statuses_url /\
    requests_get w diff_url (diff_headers g) = inr resp /\
    status_code resp = 200 /\ text resp = diff_text /\
    ~ blank diff_text /\
    has_meta pr pr_title login.

(** The model raised [e] when it was given the prompt for this diff. *)
Definition model_fails (w : World) (diff_text : pystr)
    (pr_title login : json) (e : pyexception) : Prop :=
  exists prompt,
    trace (analyze_code_with_gemini w diff_text pr_title login)
      = [Generate prompt] /\
    generate_content w prompt = inl e.

(** Posting the comment for [review] raised nothing. *)
Definition comment_posted (w : World) (g : Globals) (comments_url : json)
    (review : pystr) : Prop :=
  requests_post w comments_url
    (JObj {[ "body" := JStr (review ++ ATTRIBUTION) ]})
    (json_headers g) = inr tt.

(** The run got as far as step 6 with the review text [review]. *)
Definition reaches_report (w : World) (g : Globals)
    (diff_url comments_url statuses_url : json) (review : pystr) : Prop :=
  exists diff_text pr_title login,
    reviewable w g diff_url comments_url statuses_url diff_text
      pr_title login /\
    result (analyze_code_with_gemini w diff_text pr_title login)
      = Done review /\
    comment_posted w g comments_url review.

(** ** Sample events and worlds *)

Module Sample.

Definition pr : json :=
  JObj {[ "diff_url" := JStr "https://host/pr/1.diff";
          "comments_url" := JStr "https://host/pr/1/comments";
          "statuses_url" := JStr "https://host/statuses/abc";
          "title" := JStr "Fix parser";
          "user" := JObj {[ "login" := JStr "alice" ]} ]}.

Definition event (action : pystr) : json :=
  JObj {[ "action" := JStr action; "pull_request" := pr ]}.

(** A pull-request record without [statuses_url]. *)
Definition pr_no_statuses : json :=
  JObj {[ "diff_url" := JStr "https://host/pr/1.diff";
          "comments_url" := JStr "https://host/pr/1/comments" ]}.

Definition globals (p : json) : Globals :=
  {| payload := p; GITHUB_TOKEN := "ghp"; GOOGLE_API_KEY := "key" |}.

(** A world in which the environment is complete, the payload decodes to
    [p], the diff fetch answers [code] and [diff], posting succeeds and the
    model answers [gen]. *)
Definition world (p : json) (code : Z) (diff : pystr)
    (gen : pyexception + pystr) : World :=
  {| environ := fun k =>
       if bool_decide (k = "GITHUB_PAYLOAD") then Some "{}"
       else if bool_decide (k = "GITHUB_TOKEN") then Some "ghp"
       else if bool_decide (k = "GOOGLE_API_KEY") then Some "key"
       else None;
     json_loads := fun _ => Some p;
     builtin_str := fun _ => "None";
     requests_get := fun _ _ => inr {| status_code := code; text := diff |};
     requests_post := fun _ _ _ => inr tt;
     generate_content := fun _ => gen |}.

(** A world without the source-control token. *)
Definition world_no_token : World :=
  {| environ := fun k =>
       if bool_decide (k = "GITHUB_PAYLOAD") then Some "{}"
       else if bool_decide (k = "GOOGLE_API_KEY") then Some "key"
       else None;
     json_loads := fun _ => Some (event "opened");
     builtin_str := fun _ => "None";
     requests_get := fun _ _ => inr {| status_code := 200; text := "+ x" |};
     requests_post := fun _ _ _ => inr tt;
     generate_content := fun _ => inr "✅ **APPROVE**" |}.

(** The event of a freshly opened pull request and its globals. *)
Definition opened : Globals := globals (event "opened").

Definition diff_url : json := JStr "https://host/pr/1.diff".
Definition comments_url : json := JStr "https://host/pr/1/comments".
Definition statuses_url : json := JStr "https://host/statuses/abc".

(** The world of an opened pull request with a short diff. *)
Definition reviewing (gen : pyexception + pystr) : World :=
  world (event "opened") 200 "+ x" gen.

(** A failure of the model whose description quotes a verdict marker. *)
Definition quoting_failure : pyexception :=
  {| exc_class := "ValueError";
     exc_str := "blocked response: ✅ **APPROVE**" |}.

(** A failure of the model with an ordinary description. *)
Definition quota_failure : pyexception :=
  {| exc_class := "ResourceExhausted"; exc_str := "429 quota" |}.

(** A diff of 30001 characters. *)
Definition long_diff : pystr := repeat 43%N (Z.to_nat 30001).

End Sample.

(** ** The imports of the script *)

(** Section 0 of the script: the two imports and, when one of them is not
    found, the installation of both packages followed by the imports again.
    What the interpreter and the operating system do is a [Host]; the answer
    to an import or to a subprocess may depend on what was done before. *)

(** A step of section 0 that reaches the host. *)
Inductive host_call : Type :=
| Import (module : pystr)
| CheckCall (argv : list pystr).

(** What an [import] statement gives. *)
Inductive import_answer : Type :=
| Imported
| NotFound (e : pyexception)   (* [ImportError] or one of its subclasses *)
| Crashed (e : pyexception).   (* any other exception *)

Record Host : Type := {
  (** [sys.executable] *)
  sys_executable : pystr;
  (** [import module], after the steps already made *)
  import_module : list host_call -> pystr -> import_answer;
  (** [subprocess.check_call(argv)]; the left side is the exception raised,
      [CalledProcessError] when the command fails *)
  check_call : list host_call -> list pystr -> pyexception + unit
}.

(** The exceptions of section 0, by what [except ImportError] catches. *)
Inductive host_exc : Type :=
| ImportError (e : pyexception)
| OtherError (e : pyexception).

Definition host_exc_instance (x : host_exc) : pyexception :=
  match x with
  | ImportError e => e
  | OtherError e => e
  end.

(** A computation of section 0: from the steps made so far to the steps
    made after it, with a value or an exception. *)
Definition S (A : Type) : Type :=
  list host_call -> list host_call * (host_exc + A).

Definition seq {A B} (m : S A) (k : S B) : S B :=
  fun done =>
    match m done with
    | (done', inr _) => k done'
    | (done', inl x) => (done', inl x)
    end.

(** [try: body except ImportError: handler] *)
Definition except_ImportError {A} (body handler : S A) : S A :=
  fun done =>
    match body done with
    | (done', inl (ImportError _)) => handler done'
    | r => r
    end.

Section Imports.

Variable h : Host.

(** [import module] *)
Definition import_ (module : pystr) : S unit :=
  fun done =>
    (done ++ [Import module],
     match import_module h done module with
     | Imported => inr tt
     | NotFound e => inl (ImportError e)
     | Crashed e => inl (OtherError e)
     end).

Definition install (package : pystr) : S unit :=
  fun done =>
    let argv := [sys_executable h; "-m"; "pip"; "install"; package] in
    (done ++ [CheckCall argv],
     match check_call h done argv with
     | inl e => inl (OtherError e)
     | inr u => inr u
     end).

(** The [try] statement of section 0. *)
Definition imports : S unit :=
  except_ImportError
    (seq (import_ "requests") (import_ "google.generativeai"))
    (seq (install "requests")
       (seq (install "google-generativeai")
          (seq (import_ "requests") (import_ "google.generativeai")))).

End Imports.

(** The whole script: section 0, then the top level and [run].  An
    exception of section 0 is not caught and ends the process. *)
Definition script (h : Host) (w : World) : list host_call * M unit :=
  match imports h [] with
  | (steps, inr _) => (steps, main w)
  | (steps, inl x) =>
    (steps, ([], Raised (LibraryError (host_exc_instance x))))
  end.

(** The command line of [install]. *)
Definition pip_install (h : Host) (package : pystr) : host_call :=
  CheckCall [sys_executable h; "-m"; "pip"; "install"; package].

(** ** Sample hosts *)

Module SampleHost.

Definition module_not_found : pyexception :=
  {| exc_class := "ModuleNotFoundError";
     exc_str := "No module named 'google'" |}.

Definition pip_failed : pyexception :=
  {| exc_class := "CalledProcessError";
     exc_str := "returned non-zero exit status 1" |}.

(** Both packages are there. *)
Definition ready : Host :=
  {| sys_executable := "/usr/bin/python3";
     import_module := fun _ _ => Imported;
     check_call := fun _ _ => inr tt |}.

(** [google.generativeai] is found only once its package was installed. *)
Definition fresh : Host :=
  {| sys_executable := "/usr/bin/python3";
     import_module := fun done m =>
       if bool_decide (m = "google.generativeai") &&
          negb (existsb
                  (fun c => match c with
                            | CheckCall argv =>
                              bool_decide (last argv = Some "google-generativeai")
                            | Import _ => false
                            end) done)
       then NotFound module_not_found else Imported;
     check_call := fun _ _ => inr tt |}.

(** Nothing is installed and [pip] fails. *)
Definition offline : Host :=
  {| sys_executable := "/usr/bin/python3";
     import_module := fun _ _ => NotFound module_not_found;
     check_call := fun _ _ => inl pip_failed |}.

End SampleHost.

(** ** Vocabulary of the further statements *)

(** An outbound HTTP call that carries the token of the script and the
    media type of its kind; the call of the model carries neither. *)
Definition authenticated (g : Globals) (c : call) : Prop :=
  match c with
  | HttpGet _ headers =>
    headers !! "Authorization" = Some ("token " ++ GITHUB_TOKEN g) /\
    headers !! "Accept" = Some "application/vnd.github.v3.diff"
  | HttpPost _ _ headers =>
    headers !! "Authorization" = Some ("token " ++ GITHUB_TOKEN g) /\
    headers !! "Accept" = Some "application/vnd.github.v3+json"
  | Generate _ => True
  end.

(** The steps of section 0 after an [ImportError]. *)
Definition recovery (h : Host) : list host_call :=
  [pip_install h "requests"; pip_install h "google-generativeai";
   Import "requests"; Import "google.generativeai"].

(** The [try] block of section 0 ended with an [ImportError] after the
    imports [tried]: the first import was not found, or the first was
    imported and the second was not found. *)
Definition import_error_after (h : Host) (tried : list host_call) : Prop :=
  (tried = [Import "requests"] /\
   exists e, import_module h [] "requests" = NotFound e) \/
  (tried = [Import "requests"; Import "google.generativeai"] /\
   import_module h [] "requests" = Imported /\
   exists e,
     import_module h [Import "requests"] "google.generativeai" = NotFound e).

(** ** Sample faults *)

Module SampleFault.

Definition timeout : pyexception :=
  {| exc_class := "ConnectionError"; exc_str := "timed out" |}.

(** The world of an opened pull request in which the diff fetch answers
    [get], a POST to [url] answers [post url] and the model answers [gen]. *)
Definition world (get : pyexception + Response)
    (post : json -> pyexception + unit) (gen : pyexception + pystr) : World :=
  {| environ := fun k =>
       if bool_decide (k = "GITHUB_PAYLOAD") then Some "{}"
       else if bool_decide (k = "GITHUB_TOKEN") then Some "ghp"
       else if bool_decide (k = "GOOGLE_API_KEY") then Some "key"
       else None;
     json_loads := fun _ => Some (Sample.event "opened");
     builtin_str := fun _ => "None";
     requests_get := fun _ _ => get;
     requests_post := fun url _ _ => post url;
     generate_content := fun _ => gen |}.

Definition short_diff : pyexception + Response :=
  inr {| status_code := 200; text := "+ x" |}.

(** Posting fails on the locator whose text is [bad]. *)
Definition post_fails_on (bad : pystr) (url : json) : pyexception + unit :=
  match url with
  | JStr s => if bool_decide (s = bad) then inl timeout else inr tt
  | _ => inr tt
  end.

(** A pull-request record without [title]. *)
Definition pr_untitled : gmap pystr json :=
  {[ "diff_url" := JStr "https://host/pr/1.diff";
     "comments_url" := JStr "https://host/pr/1/comments";
     "statuses_url" := JStr "https://host/statuses/abc";
     "user" := JObj {[ "login" := JStr "alice" ]} ]}.

Definition untitled_event : json :=
  JObj {[ "action" := JStr "opened"; "pull_request" := JObj pr_untitled ]}.

(** A world whose payload is the JSON number 5, with both credentials. *)
Definition scalar_world : World :=
  {| environ := fun k =>
       if bool_decide (k = "GITHUB_PAYLOAD") then Some "5"
       else if bool_decide (k = "GITHUB_TOKEN") then Some "ghp"
       else if bool_decide (k = "GOOGLE_API_KEY") then Some "key"
       else None;
     json_loads := fun s =>
       if bool_decide (s = "5") then Some (JInt 5) else None;
     builtin_str := fun _ => "None";
     requests_get := fun _ _ => short_diff;
     requests_post := fun _ _ _ => inr tt;
     generate_content := fun _ => inr "Fine. ✅ **APPROVE**" |}.

(** The sample event with entries that the script does not read. *)
Definition verbose_event : gmap pystr json :=
  {[ "action" := JStr "opened";
     "number" := JInt 7;
     "pull_request" :=
       JObj {[ "diff_url" := JStr "https://host/pr/1.diff";
               "comments_url" := JStr "https://host/pr/1/comments";
               "statuses_url" := JStr "https://host/statuses/abc";
               "title" := JStr "Fix parser";
               "draft" := JBool false;
               "user" := JObj {[ "login" := JStr "alice" ]} ]} ]}.

(** A longer diff that agrees with [Sample.long_diff] on the first 30000
    characters. *)
Definition other_long_diff : pystr := Sample.long_diff ++ "--".

End SampleFault.

(** * Properties *)

(** ** Literals *)

Example decode_ascii :
  Utf8.decode [111; 107]%N = Utf8.pcons 111 (Utf8.pcons 107 Utf8.pnil).
Proof. reflexivity. Qed.

(** The check mark is E2 9C 85 in the file. *)
Example decode_check_mark :
  Utf8.decode [226; 156; 133]%N = Utf8.pcons 9989 Utf8.pnil.
Proof. reflexivity. Qed.

(** The robot face is F0 9F A4 96 in the file. *)
Example decode_robot :
  Utf8.decode [240; 159; 164; 150]%N = Utf8.pcons 129302 Utf8.pnil.
Proof. reflexivity. Qed.

(** The warning sign of the script is followed by a variation selector. *)
Example literal_warning_sign : "⚠️" = [9888; 65039]%N.
Proof. reflexivity. Qed.

Example literal_markers :
  REQUEST_CHANGES =
    [9888; 65039; 32; 42; 42; 82; 69; 81; 85; 69; 83; 84; 32; 67; 72; 65;
     78; 71; 69; 83; 42; 42]%N /\
  APPROVE = [9989; 32; 42; 42; 65; 80; 80; 82; 79; 86; 69; 42; 42]%N.
Proof. split; reflexivity. Qed.

(** ** Substring search and stripping *)

Section StringFacts.

Implicit Types needle hay s : pystr.

Lemma starts_with_prefix needle hay :
  starts_with needle hay = true <-> exists post, hay = needle ++ post.
Proof.
  revert hay. induction needle as [|a needle IH]; intros hay.
  - split; [intros _; exists hay; reflexivity | reflexivity].
  - destruct hay as [|b hay]; simpl.
    + split; [discriminate | intros [post H]; discriminate].
    + rewrite andb_true_iff, N.eqb_eq, IH. split.
      * intros [-> [post ->]]. exists post. reflexivity.
      * intros [post H]. injection H as -> ->. eauto.
Qed.

Lemma str_contains_Substring needle hay :
  str_contains needle hay = true <-> Substring needle hay.
Proof.
  unfold Substring. induction hay as [|b hay IH].
  - simpl. rewrite orb_false_r, starts_with_prefix. split.
    + intros [post H]. exists [], post. exact H.
    + intros [pre [post H]]. destruct pre; [eauto|discriminate].
  - cbn [str_contains]. rewrite orb_true_iff, starts_with_prefix, IH. split.
    + intros [[post H]|[pre [post H]]].
      * exists [], post. exact H.
      * exists (b :: pre), post. rewrite H. reflexivity.
    + intros [pre [post H]]. destruct pre as [|c pre].
      * left. eauto.
      * right. injection H as _ H. eauto.
Qed.

Lemma str_contains_not_Substring needle hay :
  str_contains needle hay = false <-> ~ Substring needle hay.
Proof.
  rewrite <- str_contains_Substring. destruct (str_contains needle hay);
    split; intros; try congruence; exfalso; auto.
Qed.

Lemma clashes_starts_with needle s hay :
  clashes needle s = true -> starts_with needle (s ++ hay) = false.
Proof.
  revert s. induction needle as [|a needle IH]; intros s; [discriminate|].
  destruct s as [|b s]; [discriminate|]. simpl.
  destruct (a =? b)%N; simpl; [apply IH | reflexivity].
Qed.

(** A needle that cannot start inside [pre] is found in [pre ++ hay] only
    if it is found in [hay]. *)
Lemma str_contains_skip needle pre hay :
  never_starts_in needle pre = true ->
  str_contains needle (pre ++ hay) = str_contains needle hay.
Proof.
  induction pre as [|a pre IH]; [reflexivity|].
  cbn [never_starts_in]. rewrite andb_true_iff. intros [Hc Hpre].
  change ((a :: pre) ++ hay) with (a :: (pre ++ hay)).
  cbn [str_contains].
  change (a :: (pre ++ hay)) with ((a :: pre) ++ hay).
  rewrite (clashes_starts_with _ _ _ Hc). cbn [orb]. auto.
Qed.

Lemma not_elem_of_forallb (x : N) s :
  forallb (fun a => negb (x =? a)%N) s = true -> x ∉ s.
Proof.
  intros H Hin. apply list_elem_of_In in Hin.
  rewrite forallb_forall in H. specialize (H x Hin).
  rewrite N.eqb_refl in H. discriminate.
Qed.

(** A needle that does not contain [x] cannot reach a final [x]. *)
Lemma Substring_drop_last needle hay x :
  needle <> [] -> x ∉ needle ->
  Substring needle (hay ++ [x]) -> Substring needle hay.
Proof.
  intros Hne Hx [pre [post H]].
  destruct (decide (post = [])) as [->|Hpost].
  - rewrite app_nil_r in H.
    destruct (decide (needle = [])) as [|Hn]; [contradiction|].
    destruct (exists_last Hn) as [needle' [y ->]].
    rewrite app_assoc in H. apply app_inj_tail in H as [_ <-].
    exfalso. apply Hx. apply elem_of_app. right. apply list_elem_of_singleton.
    reflexivity.
  - destruct (exists_last Hpost) as [post' [y ->]].
    rewrite !app_assoc in H. apply app_inj_tail in H as [H _].
    exists pre, post'. rewrite H, app_assoc. reflexivity.
Qed.

Lemma forallb_reverse (f : N -> bool) s : forallb f (rev s) = forallb f s.
Proof.
  induction s as [|c s IH]; [reflexivity|].
  simpl. rewrite forallb_app, IH. simpl. rewrite andb_true_r. apply andb_comm.
Qed.

Lemma lstrip_nil s : lstrip s = [] <-> forallb isspace s = true.
Proof.
  induction s as [|c s IH]; simpl; [tauto|].
  destruct (isspace c); simpl; [exact IH|]. split; discriminate.
Qed.

Lemma lstrip_all_space s : forallb isspace s = true -> lstrip s = [].
Proof. apply lstrip_nil. Qed.

(** What is left by [lstrip] is a suffix that starts with a non-space. *)
Lemma lstrip_suffix s :
  exists pre, s = pre ++ lstrip s /\ forallb isspace pre = true.
Proof.
  induction s as [|c s [pre [H1 H2]]]; simpl.
  - exists []. split; reflexivity.
  - destruct (isspace c) eqn:E.
    + exists (c :: pre). simpl. rewrite E, H2, <- H1. split; reflexivity.
    + exists []. split; reflexivity.
Qed.

(** [s.strip()] is empty exactly when every character of [s] is a space. *)
Lemma strip_nil s : strip s = [] <-> forallb isspace s = true.
Proof.
  unfold strip, rstrip. split.
  - intros H.
    assert (Hl : lstrip (rev (lstrip s)) = []).
    { rewrite <- (rev_involutive (lstrip (rev (lstrip s)))), H. reflexivity. }
    apply lstrip_nil in Hl. rewrite forallb_reverse in Hl.
    destruct (lstrip_suffix s) as [pre [E Hpre]].
    rewrite E, forallb_app, Hpre, Hl. reflexivity.
  - intros H. rewrite (lstrip_all_space _ H). reflexivity.
Qed.

Lemma truthy_false s : truthy s = false <-> s = [].
Proof. destruct s; simpl; split; congruence. Qed.

(** The test [not code_diff or not code_diff.strip()] on a string. *)
Lemma blank_test s :
  negb (truthy s) || negb (truthy (strip s)) = forallb isspace s.
Proof.
  destruct (forallb isspace s) eqn:E.
  - apply strip_nil in E. rewrite E. simpl. apply orb_true_r.
  - assert (Hs : strip s <> []) by (rewrite strip_nil; congruence).
    assert (Hn : s <> []) by (intros ->; discriminate).
    destruct s; [congruence|]. destruct (strip (n :: s)); [congruence|].
    reflexivity.
Qed.

End StringFacts.

(** ** Executions *)

Section MonadFacts.

Context {A B : Type}.

Lemma bind_ret (a : A) (k : A -> M B) : bind (ret a) k = k a.
Proof. unfold bind, ret. destruct (k a). reflexivity. Qed.

Lemma bind_raise (e : exc) (k : A -> M B) : bind (raise e) k = raise e.
Proof. reflexivity. Qed.

Lemma bind_done (t : list call) (a : A) (k : A -> M B) :
  bind (t, Done a) k = (t ++ trace (k a), result (k a)).
Proof. unfold bind. destruct (k a). reflexivity. Qed.

Lemma bind_raised (t : list call) (e : exc) (k : A -> M B) :
  bind (t, Raised e) k = (t, Raised e).
Proof. reflexivity. Qed.

End MonadFacts.

Lemma blank_forallb (s : pystr) : forallb isspace s = true <-> blank s.
Proof.
  unfold blank. rewrite forallb_forall, List.Forall_forall. reflexivity.
Qed.

(** The allowed actions, as the test of step 1 sees them. *)
Lemma py_in_names_true (v : json) (names : list pystr) :
  py_in_names v names = true <-> exists s, v = JStr s /\ s ∈ names.
Proof.
  destruct v; simpl; try (split; [discriminate | intros [? [? _]]; discriminate]).
  rewrite bool_decide_eq_true. split.
  - intros H. exists s. auto.
  - intros [s' [E H]]. injection E as ->. exact H.
Qed.

(** Steps 1 and 2 of [run] for an event that passes the filter. *)
Ltac pass_filter H :=
  let ev := fresh "ev" in
  let act := fresh "act" in
  let Hp := fresh "Hp" in
  let Hpr := fresh "Hpr" in
  let Ha := fresh "Ha" in
  let Hin := fresh "Hin" in
  destruct H as (ev & act & Hp & Hpr & Ha & Hin);
  unfold run; rewrite Hp; cbn [py_in py_get py_getitem];
  rewrite !bind_ret, Hpr, Ha;
  rewrite (bool_decide_eq_true_2 _ (mk_is_Some _ _ eq_refl));
  cbn [negb default from_option id py_in_names];
  rewrite (bool_decide_eq_true_2 _ Hin);
  cbn [negb]; rewrite bind_ret.

(** The three subscripts of step 2 on a complete record. *)
Ltac read_urls H :=
  let d := fresh "d" in
  let Hd := fresh "Hd" in
  let Hdu := fresh "Hdu" in
  let Hcu := fresh "Hcu" in
  let Hsu := fresh "Hsu" in
  destruct H as (d & Hd & Hdu & Hcu & Hsu);
  rewrite Hd; cbn [py_getitem];
  rewrite Hdu, bind_ret, Hcu, bind_ret, Hsu, bind_ret.

(** A run that has ended before its fourth call. *)
Ltac too_short :=
  cbn [trace fst length app raise ret]; intros; exfalso; lia.

Section RunFacts.

Variable w : World.
Variable g : Globals.

(** Section 1 hands its globals to [run]. *)
Lemma main_loaded : loaded w g -> main w = run w g.
Proof.
  intros (pj & Hp & Hne & Hl & Ht & Htne & Hk & Hkne).
  unfold main. rewrite Hp. simpl.
  destruct pj as [|c pj]; [congruence|]. simpl. rewrite Hl, Ht, Hk. simpl.
  destruct (GITHUB_TOKEN g) eqn:E1; [congruence|].
  destruct (GOOGLE_API_KEY g) eqn:E2; [congruence|].
  simpl. rewrite <- E1, <- E2. destruct g. reflexivity.
Qed.

(** A rejected event ends the run at step 1. *)
Lemma run_filtered_out ev :
  payload g = JObj ev -> filtered_out ev -> run w g = ([], Done tt).
Proof.
  intros Hp Hf. unfold run. rewrite Hp. cbn [py_in py_get].
  rewrite !bind_ret. destruct Hf as [Hpr|Hact].
  - rewrite Hpr. rewrite bool_decide_eq_false_2; [reflexivity|].
    intros [x Hx]. discriminate.
  - destruct (bool_decide (is_Some (ev !! "pull_request")));
      [|reflexivity].
    cbn [negb].
    destruct (py_in_names _ _) eqn:E; [|reflexivity].
    exfalso. apply Hact. apply py_in_names_true in E as [s [E Hs]].
    exists s. split; [|exact Hs].
    destruct (ev !! "action"); simpl in E; congruence.
Qed.

(** Whatever the shape of the decoded payload, a run makes no call unless
    the payload passes the filter. *)
Lemma run_not_passing :
  ~ (exists pr, passes_filter (payload g) pr) -> trace (run w g) = [].
Proof.
  intros Hn.
  destruct (payload g) as [| | | | s|l|ev] eqn:Hp.
  7:{ assert (Hout : filtered_out ev).
      { destruct (ev !! "pull_request") as [pr|] eqn:Hpr; [|left; exact Hpr].
        right. intros (a & Ha & Hin). apply Hn. exists pr, ev, a. auto. }
      rewrite (run_filtered_out ev Hp Hout). reflexivity. }
  all: unfold run; rewrite Hp; cbn [py_in];
    rewrite ?bind_raise, ?bind_ret; try reflexivity.
  - destruct (str_contains _ s); reflexivity.
  - destruct (existsb _ l); reflexivity.
Qed.

(** A record that lacks one of the three locators stops the run with a
    [KeyError] before any call. *)
Lemma run_missing_url pr d :
  passes_filter (payload g) pr -> pr = JObj d ->
  d !! "diff_url" = None \/ d !! "comments_url" = None \/
  d !! "statuses_url" = None ->
  exists key,
    run w g = ([], Raised (KeyError key)) /\
    key ∈ ["diff_url"; "comments_url"; "statuses_url"] /\
    d !! key = None.
Proof.
  intros Hf -> Hmiss. pass_filter Hf. cbn [py_getitem].
  destruct (d !! "diff_url") as [du|] eqn:Edu.
  2:{ exists "diff_url". rewrite bind_raise. split; [reflexivity|].
      split; [apply list_elem_of_here | exact Edu]. }
  rewrite bind_ret.
  destruct (d !! "comments_url") as [cu|] eqn:Ecu.
  2:{ exists "comments_url". rewrite bind_raise. split; [reflexivity|].
      split; [apply list_elem_of_further, list_elem_of_here | exact Ecu]. }
  rewrite bind_ret.
  destruct (d !! "statuses_url") as [su|] eqn:Esu.
  2:{ exists "statuses_url". rewrite bind_raise. split; [reflexivity|].
      split; [do 2 apply list_elem_of_further; apply list_elem_of_here
             | exact Esu]. }
  exfalso. destruct Hmiss as [H|[H|H]]; congruence.
Qed.

(** [get_pr_diff] makes one GET and reads the status of the answer. *)
Lemma get_pr_diff_answer diff_url resp :
  requests_get w diff_url (diff_headers g) = inr resp ->
  get_pr_diff w g diff_url =
    ([HttpGet diff_url (diff_headers g)],
     Done (if status_code resp =? 200 then Some (text resp) else None)).
Proof.
  intros H. unfold get_pr_diff, do_get. rewrite H. rewrite bind_done.
  reflexivity.
Qed.

(** Steps 1 to 3: the run up to the test on the fetched diff. *)
Lemma run_no_diff pr diff_url comments_url statuses_url resp :
  passes_filter (payload g) pr ->
  has_urls pr diff_url comments_url statuses_url ->
  requests_get w diff_url (diff_headers g) = inr resp ->
  status_code resp <> 200 \/ blank (text resp) ->
  run w g = ([HttpGet diff_url (diff_headers g)], Done tt).
Proof.
  intros Hf Hu Hget Hno. pass_filter Hf. read_urls Hu.
  rewrite (get_pr_diff_answer _ _ Hget), bind_done.
  destruct (status_code resp =? 200) eqn:E.
  - destruct Hno as [Hno|Hno]; [apply Z.eqb_eq in E; contradiction|].
    apply blank_forallb in Hno. rewrite blank_test, Hno. reflexivity.
  - reflexivity.
Qed.

(** [post_comment] makes one POST whose body is the text and the
    attribution. *)
Lemma post_comment_post comments_url body :
  trace (post_comment w g comments_url body) =
    [HttpPost comments_url (JObj {[ "body" := JStr (body ++ ATTRIBUTION) ]})
       (json_headers g)].
Proof. reflexivity. Qed.

Lemma post_comment_done comments_url body :
  comment_posted w g comments_url body ->
  result (post_comment w g comments_url body) = Done tt.
Proof.
  unfold comment_posted.
  intros H. unfold post_comment, do_post, result. cbn [snd].
  change (body ++ LF ++ LF ++ "_— Reviewed by OS-Maintainer Bot 🤖_")
    with (body ++ ATTRIBUTION).
  rewrite H. reflexivity.
Qed.

(** [update_pr_status] makes one POST of a status record. *)
Lemma update_pr_status_post status_url state description :
  exists data,
    trace (update_pr_status w g status_url state description) =
      [HttpPost status_url (JObj data) (json_headers g)] /\
    data !! "state" = Some (JStr state) /\
    data !! "description" = Some (JStr description) /\
    data !! "context" = Some (JStr "OS-Maintainer / AI-Reviewer") /\
    data !! "target_url" =
      Some (from_option JStr JNull (environ w "KESTRA_EXECUTION_URL")).
Proof.
  eexists. split; [reflexivity|].
  repeat split; vm_compute; reflexivity.
Qed.

(** The diff as the prompt shows it. *)
Lemma analyze_trace diff_text pr_title user :
  trace (analyze_code_with_gemini w diff_text pr_title user) =
    [Generate
       (prompt_of w
          (if len diff_text >? 30000
           then slice_to 30000 diff_text ++ TRUNCATION_NOTICE
           else diff_text) pr_title user)].
Proof. reflexivity. Qed.

(** The model never stops the run: there is always a review text. *)
Lemma analyze_total diff_text pr_title user :
  exists review,
    result (analyze_code_with_gemini w diff_text pr_title user) = Done review.
Proof.
  unfold analyze_code_with_gemini, result. cbn [snd].
  destruct (generate_content w _); eauto.
Qed.

(** Step 6 posts the entry of the table for the verdict. *)
Lemma step6_table statuses_url review :
  match verdict review with
  | ChangesRequested =>
    update_pr_status w g statuses_url "failure"
      "AI Review failed: Changes Requested."
  | Approved =>
    update_pr_status w g statuses_url "success"
      "AI Review passed successfully."
  | Inconclusive =>
    update_pr_status w g statuses_url "error"
      "AI Review was inconclusive."
  end =
  update_pr_status w g statuses_url
    (fst (status_of (verdict review))) (snd (status_of (verdict review))).
Proof. destruct (verdict review); cbn [status_of fst snd]; reflexivity. Qed.

(** Steps 1 to 5: the run of a complete event with a diff to review. *)
Lemma run_reviewed diff_url comments_url statuses_url diff_text
    pr_title login review :
  reviewable w g diff_url comments_url statuses_url diff_text
    pr_title login ->
  result (analyze_code_with_gemini w diff_text pr_title login)
    = Done review ->
  run w g =
    bind ([HttpGet diff_url (diff_headers g)] ++
          trace (analyze_code_with_gemini w diff_text pr_title login),
          Done tt)
      (fun _ =>
         bind (post_comment w g comments_url review)
           (fun _ =>
              update_pr_status w g statuses_url
                (fst (status_of (verdict review)))
                (snd (status_of (verdict review))))).
Proof.
  intros (pr & resp & Hf & Hu & Hget & Hok & <- & Hnb & Hm) Hrev.
  destruct Hm as (d' & u & Hd' & Ht & Hus & Hl).
  pass_filter Hf. read_urls Hu.
  rewrite (get_pr_diff_answer _ _ Hget), Hok. cbn [Z.eqb Pos.eqb].
  rewrite bind_done. cbn [trace result fst snd].
  rewrite blank_test.
  destruct (forallb isspace (text resp)) eqn:E;
    [apply blank_forallb in E; contradiction|].
  assert (d' = d) as -> by congruence.
  rewrite Ht, bind_ret, Hus, bind_ret. cbn [py_getitem]. rewrite Hl, bind_ret.
  destruct (analyze_code_with_gemini w (text resp) pr_title login)
    as [ta ra] eqn:Ea.
  cbn [result snd] in Hrev. subst ra. rewrite bind_done.
  rewrite step6_table. rewrite !bind_done. cbn [trace result fst snd].
  rewrite <- app_assoc. reflexivity.
Qed.

(** Steps 1 to 6 when the comment goes through: the four calls of a
    reported run. *)
Lemma run_reported diff_url comments_url statuses_url review :
  reaches_report w g diff_url comments_url statuses_url review ->
  exists prompt,
    run w g =
      ([HttpGet diff_url (diff_headers g); Generate prompt;
        HttpPost comments_url
          (JObj {[ "body" := JStr (review ++ ATTRIBUTION) ]})
          (json_headers g)]
       ++ trace (update_pr_status w g statuses_url
                   (fst (status_of (verdict review)))
                   (snd (status_of (verdict review)))),
       result (update_pr_status w g statuses_url
                 (fst (status_of (verdict review)))
                 (snd (status_of (verdict review))))).
Proof.
  intros (diff_text & pr_title & login & Hable & Hrev & Hpost).
  rewrite (run_reviewed _ _ _ _ _ _ _ Hable Hrev).
  rewrite analyze_trace. eexists.
  rewrite bind_done.
  pose proof (post_comment_post comments_url review) as Ht.
  pose proof (post_comment_done comments_url review Hpost) as Hr.
  destruct (post_comment w g comments_url review) as [tc rc].
  cbn [trace result fst snd] in Ht, Hr. subst tc rc.
  rewrite bind_done. cbn [trace result fst snd app]. reflexivity.
Qed.

End RunFacts.

(** ** Runs that make a third and a fourth call *)

Section Complete.

Variable w : World.
Variable g : Globals.

(** A run makes a third call only if it has a diff to review. *)
Lemma three_calls_reviewable :
  (2 < length (trace (run w g)))%nat ->
  exists diff_url comments_url statuses_url diff_text pr_title login,
    reviewable w g diff_url comments_url statuses_url diff_text
      pr_title login.
Proof.
  assert (Hshort : ~ (exists pr, passes_filter (payload g) pr) ->
            (2 < length (trace (run w g)))%nat -> False).
  { intros Hn. rewrite (run_not_passing w g Hn). cbn. lia. }
  destruct (payload g) as [| | | | s|l|ev] eqn:Hp;
    try (intros Hlen; exfalso; apply Hshort; [|exact Hlen];
         intros (pr & ev' & a & He & _); discriminate).
  destruct (ev !! "pull_request") as [pr|] eqn:Hpr.
  2:{ intros Hlen; exfalso; apply Hshort; [|exact Hlen].
      intros (pr & ev' & a & He & Hpr' & _). congruence. }
  destruct (ev !! "action") as [[| | | |act| |]|] eqn:Ha;
    try (intros Hlen; exfalso; apply Hshort; [|exact Hlen];
         intros (pr' & ev' & a & He & _ & Ha' & _); congruence).
  destruct (decide (act ∈ ["opened"; "reopened"; "synchronize"]))
    as [Hin|Hnin].
  2:{ intros Hlen; exfalso; apply Hshort; [|exact Hlen].
      intros (pr' & ev' & a & He & _ & Ha' & Hin). apply Hnin.
      congruence. }
  clear Hshort.
  assert (Hf : passes_filter (payload g) pr).
  { exists ev, act. rewrite Hp. auto. }
  pose proof Hf as Hf'. pass_filter Hf'.
  destruct pr as [| | | | | |d]; cbn [py_getitem];
    rewrite ?bind_raise; try too_short.
  destruct (d !! "diff_url") as [du|] eqn:Hdu;
    rewrite ?bind_raise, ?bind_ret; [|too_short].
  destruct (d !! "comments_url") as [cu|] eqn:Hcu;
    rewrite ?bind_raise, ?bind_ret; [|too_short].
  destruct (d !! "statuses_url") as [su|] eqn:Hsu;
    rewrite ?bind_raise, ?bind_ret; [|too_short].
  destruct (requests_get w du (diff_headers g)) as [e|resp] eqn:Hget.
  { unfold get_pr_diff, do_get. rewrite Hget, !bind_raised. too_short. }
  rewrite (get_pr_diff_answer w g _ _ Hget), bind_done.
  destruct (status_code resp =? 200) eqn:Hok; [|too_short].
  rewrite blank_test.
  destruct (forallb isspace (text resp)) eqn:Hb; [too_short|].
  destruct (d !! "title") as [pr_title|] eqn:Ht;
    rewrite ?bind_raise, ?bind_ret; [|too_short].
  destruct (d !! "user") as [[| | | | | |u]|] eqn:Hu;
    rewrite ?bind_raise, ?bind_ret; cbn [py_getitem];
    rewrite ?bind_raise; try too_short.
  destruct (u !! "login") as [login|] eqn:Hl;
    rewrite ?bind_raise, ?bind_ret; [|too_short].
  intros _. exists du, cu, su, (text resp), pr_title, login.
  exists (JObj d), resp.
  split; [exact Hf|]. split; [exists d; auto|].
  split; [exact Hget|]. split; [apply Z.eqb_eq; exact Hok|].
  split; [reflexivity|].
  split; [rewrite <- blank_forallb; congruence|].
  exists d, u. auto.
Qed.

(** A run makes a fourth call only if it reaches the report. *)
Lemma four_calls_reach_report :
  (3 < length (trace (run w g)))%nat ->
  exists diff_url comments_url statuses_url review,
    reaches_report w g diff_url comments_url statuses_url review.
Proof.
  intros Hlen.
  destruct three_calls_reviewable
    as (du & cu & su & diff_text & pr_title & login & Hable); [lia|].
  destruct (analyze_total w diff_text pr_title login) as [review Hrev].
  exists du, cu, su, review, diff_text, pr_title, login.
  split; [exact Hable|]. split; [exact Hrev|].
  revert Hlen. rewrite (run_reviewed w g _ _ _ _ _ _ _ Hable Hrev).
  rewrite analyze_trace, bind_done. unfold comment_posted.
  unfold post_comment, do_post.
  change (review ++ LF ++ LF ++ "_— Reviewed by OS-Maintainer Bot 🤖_")
    with (review ++ ATTRIBUTION).
  destruct (requests_post w cu _ (json_headers g)) as [e|[]];
    [rewrite bind_raised; too_short | reflexivity].
Qed.

End Complete.

(** ** The verdict *)

(** C1. The verdict is a function of the review text alone, by substring
    search: a text that contains the marker "⚠️ **REQUEST CHANGES**" is
    ChangesRequested, whether or not it also contains "✅ **APPROVE**"; a
    text without the first marker that contains "✅ **APPROVE**" is
    Approved; a text with neither marker is Inconclusive. *)
Theorem verdict_classification (review : pystr) :
  (Substring "⚠️ **REQUEST CHANGES**" review ->
   verdict review = ChangesRequested) /\
  (~ Substring "⚠️ **REQUEST CHANGES**" review ->
   Substring "✅ **APPROVE**" review ->
   verdict review = Approved) /\
  (~ Substring "⚠️ **REQUEST CHANGES**" review ->
   ~ Substring "✅ **APPROVE**" review ->
   verdict review = Inconclusive).
Proof.
  unfold verdict, REQUEST_CHANGES, APPROVE.
  repeat split.
  - intros H. apply str_contains_Substring in H. rewrite H. reflexivity.
  - intros Hn H. apply str_contains_not_Substring in Hn.
    apply str_contains_Substring in H. rewrite Hn, H. reflexivity.
  - intros Hn Hn'. apply str_contains_not_Substring in Hn, Hn'.
    rewrite Hn, Hn'. reflexivity.
Qed.

Lemma verdict_classification_witness :
  verdict "Leak. ⚠️ **REQUEST CHANGES** or ✅ **APPROVE**"
    = ChangesRequested /\
  verdict "Fine. ✅ **APPROVE**" = Approved /\
  verdict "I cannot tell." = Inconclusive.
Proof.
  split; [|split].
  - apply (proj1 (verdict_classification _)).
    apply str_contains_Substring. vm_compute. reflexivity.
  - apply (proj1 (proj2 (verdict_classification _))).
    + apply str_contains_not_Substring. vm_compute. reflexivity.
    + apply str_contains_Substring. vm_compute. reflexivity.
  - apply (proj2 (proj2 (verdict_classification _))).
    + apply str_contains_not_Substring. vm_compute. reflexivity.
    + apply str_contains_not_Substring. vm_compute. reflexivity.
Defined.

(** ** The prompt *)

(** C3. The prompt sent to the model is the diff between a head and a tail
    that do not depend on it: a diff of at most 30000 characters is there
    unmodified; of a longer one the prompt holds exactly the first 30000
    characters followed by the notice "\n... (Diff truncated)". *)
Theorem prompt_truncation (w : World) (pr_title user : json) :
  exists head tail, forall diff_text : pystr,
    (len diff_text <= 30000 ->
     trace (analyze_code_with_gemini w diff_text pr_title user) =
       [Generate (head ++ diff_text ++ tail)]) /\
    (len diff_text > 30000 ->
     exists kept dropped,
       diff_text = kept ++ dropped /\ len kept = 30000 /\
       trace (analyze_code_with_gemini w diff_text pr_title user) =
         [Generate (head ++ kept ++ (LF ++ "... (Diff truncated)")
                      ++ tail)]).
Proof.
  exists (LF ++ "    You are 'OS-Maintainer', an expert Senior Software Engineer."
          ++ LF ++ "    Review PR from @" ++ py_format w user
          ++ ". Title: " ++ py_format w pr_title
          ++ ". Code: ```diff "),
         ("```" ++ LF ++ "    " ++ LF ++ "    Instructions: 1. Check for **Security Leaks** and **Logic Bugs**. 2. Be helpful. 3. Verdict: End with either '✅ **APPROVE**' or '⚠️ **REQUEST CHANGES**'."
          ++ LF ++ "    ").
  intros diff_text. rewrite analyze_trace. unfold prompt_of. split.
  - intros Hle. assert ((len diff_text >? 30000) = false) as ->.
    { rewrite Z.gtb_ltb. apply Z.ltb_ge. exact Hle. }
    rewrite <- !app_assoc. reflexivity.
  - intros Hgt. assert ((len diff_text >? 30000) = true) as ->.
    { rewrite Z.gtb_ltb. apply Z.ltb_lt. lia. }
    exists (slice_to 30000 diff_text), (skipn (Z.to_nat 30000) diff_text).
    split; [unfold slice_to; symmetry; apply firstn_skipn|].
    split.
    + unfold slice_to, len in *. rewrite length_firstn. lia.
    + unfold TRUNCATION_NOTICE. rewrite <- !app_assoc. reflexivity.
Qed.

Lemma prompt_truncation_witness :
  exists head tail,
    trace (analyze_code_with_gemini
             (Sample.world (Sample.event "opened") 200 "+ x"
                (inr "✅ **APPROVE**"))
             "+ x" (JStr "Fix parser") (JStr "alice")) =
      [Generate (head ++ "+ x" ++ tail)] /\
    exists kept dropped,
      Sample.long_diff = kept ++ dropped /\ len kept = 30000 /\
      trace (analyze_code_with_gemini
               (Sample.world (Sample.event "opened") 200 "+ x"
                  (inr "✅ **APPROVE**"))
               Sample.long_diff (JStr "Fix parser")
               (JStr "alice")) =
        [Generate (head ++ kept ++ (LF ++ "... (Diff truncated)")
                     ++ tail)].
Proof.
  destruct (prompt_truncation
              (Sample.world (Sample.event "opened") 200 "+ x"
                 (inr "✅ **APPROVE**"))
              (JStr "Fix parser") (JStr "alice"))
    as [head [tail H]].
  exists head, tail. split.
  - apply (proj1 (H "+ x")). vm_compute. discriminate.
  - apply (proj2 (H Sample.long_diff)). vm_compute. reflexivity.
Defined.

(** ** Reporting *)

Section ReportFacts.

Variable w : World.
Variable g : Globals.

(** The four calls of a reported run and what the status record holds. *)
Lemma run_reported_status diff_url comments_url statuses_url review :
  reaches_report w g diff_url comments_url statuses_url review ->
  exists prompt data,
    trace (run w g) =
      [HttpGet diff_url (diff_headers g); Generate prompt;
       HttpPost comments_url
         (JObj {[ "body" := JStr (review ++ ATTRIBUTION) ]})
         (json_headers g);
       HttpPost statuses_url (JObj data) (json_headers g)] /\
    data !! "state" = Some (JStr (fst (status_of (verdict review)))) /\
    data !! "description"
      = Some (JStr (snd (status_of (verdict review)))).
Proof.
  intros H. destruct (run_reported w g _ _ _ _ H) as [prompt Hrun].
  destruct (update_pr_status_post w g statuses_url
              (fst (status_of (verdict review)))
              (snd (status_of (verdict review))))
    as (data & Ht & Hs & Hd & _).
  exists prompt, data. rewrite Hrun, Ht. cbn [trace fst app].
  auto.
Qed.

(** The text of the [except] branch carries its marker and the
    description of the failure. *)
Lemma ai_error_text_parts e :
  Substring "AI Error" (ai_error_text e) /\
  Substring (exc_str e) (ai_error_text e).
Proof.
  unfold ai_error_text. split.
  - exists "⚠️ **",
      (":** Could not analyze code. The model failed to respond. ("
       ++ exc_str e ++ ")").
    vm_compute. reflexivity.
  - exists "⚠️ **AI Error:** Could not analyze code. The model failed to respond. (",
      ")".
    reflexivity.
Qed.

(** The fixed part of that text holds no verdict marker: the verdict of
    the text is decided by the description of the failure. *)
Lemma ai_error_text_verdict e :
  ~ Substring REQUEST_CHANGES (exc_str e) ->
  ~ Substring APPROVE (exc_str e) ->
  verdict (ai_error_text e) = Inconclusive.
Proof.
  intros Hrc Hap. unfold verdict, ai_error_text.
  rewrite (str_contains_skip REQUEST_CHANGES) by (vm_compute; reflexivity).
  rewrite (str_contains_skip APPROVE) by (vm_compute; reflexivity).
  assert (Hr : str_contains REQUEST_CHANGES (exc_str e ++ [41%N]) = false).
  { apply str_contains_not_Substring. intros H. apply Hrc.
    apply (Substring_drop_last _ _ 41%N); [discriminate| |exact H].
    apply not_elem_of_forallb. vm_compute. reflexivity. }
  assert (Ha : str_contains APPROVE (exc_str e ++ [41%N]) = false).
  { apply str_contains_not_Substring. intros H. apply Hap.
    apply (Substring_drop_last _ _ 41%N); [discriminate| |exact H].
    apply not_elem_of_forallb. vm_compute. reflexivity. }
  rewrite Hr, Ha. reflexivity.
Qed.

End ReportFacts.

(** ** Sample runs *)

Lemma sample_passes action :
  action ∈ ["opened"; "reopened"; "synchronize"] ->
  passes_filter (Sample.event action) Sample.pr.
Proof.
  intros H.
  exists {[ "action" := JStr action; "pull_request" := Sample.pr ]},
    action.
  repeat split; try exact H; vm_compute; reflexivity.
Qed.

Lemma sample_urls :
  has_urls Sample.pr Sample.diff_url Sample.comments_url Sample.statuses_url.
Proof.
  eexists. split; [reflexivity|]. repeat split; vm_compute; reflexivity.
Qed.

Lemma sample_meta :
  has_meta Sample.pr (JStr "Fix parser") (JStr "alice").
Proof.
  eexists _, {[ "login" := JStr "alice" ]}.
  split; [reflexivity|]. repeat split; vm_compute; reflexivity.
Qed.

Lemma sample_loaded p code diff gen :
  loaded (Sample.world p code diff gen) (Sample.globals p).
Proof.
  exists "{}". repeat split; try (vm_compute; reflexivity);
    vm_compute; discriminate.
Qed.

Lemma sample_not_blank : ~ blank "+ x".
Proof. intros H. apply blank_forallb in H. vm_compute in H. discriminate. Qed.

Lemma sample_reviewable gen :
  reviewable (Sample.reviewing gen) Sample.opened
    Sample.diff_url Sample.comments_url Sample.statuses_url "+ x"
    (JStr "Fix parser") (JStr "alice").
Proof.
  exists Sample.pr, {| status_code := 200; text := "+ x" |}.
  split; [apply sample_passes, list_elem_of_here|].
  split; [apply sample_urls|].
  split; [reflexivity|]. split; [reflexivity|]. split; [reflexivity|].
  split; [apply sample_not_blank | apply sample_meta].
Qed.

(** A sample run with review text [review] reaches the report. *)
Lemma sample_reaches_report gen review :
  result (analyze_code_with_gemini (Sample.reviewing gen) "+ x"
            (JStr "Fix parser") (JStr "alice")) = Done review ->
  reaches_report (Sample.reviewing gen) Sample.opened
    Sample.diff_url Sample.comments_url Sample.statuses_url review.
Proof.
  intros H.
  exists "+ x", (JStr "Fix parser"), (JStr "alice").
  split; [apply sample_reviewable|].
  split; [exact H | reflexivity].
Qed.

(** ** The pipeline *)

(** C2. Every run that reaches the status-reporting step makes exactly one
    status POST, the last of its four calls, and the state and description
    it carries are those of the verdict: ChangesRequested gives "failure"
    with "AI Review failed: Changes Requested.", Approved gives "success"
    with "AI Review passed successfully.", Inconclusive gives "error" with
    "AI Review was inconclusive.".  No other run makes a fourth call. *)
Theorem status_mapping (w : World) (g : Globals) :
  (forall (diff_url comments_url statuses_url : json) (review : pystr),
     reaches_report w g diff_url comments_url statuses_url review ->
     exists prompt data state description,
       trace (run w g) =
         [HttpGet diff_url (diff_headers g); Generate prompt;
          HttpPost comments_url
            (JObj {[ "body" := JStr (review ++ ATTRIBUTION) ]})
            (json_headers g);
          HttpPost statuses_url (JObj data) (json_headers g)] /\
       data !! "state" = Some (JStr state) /\
       data !! "description" = Some (JStr description) /\
       (state, description) =
         match verdict review with
         | ChangesRequested =>
           ("failure", "AI Review failed: Changes Requested.")
         | Approved => ("success", "AI Review passed successfully.")
         | Inconclusive => ("error", "AI Review was inconclusive.")
         end) /\
  ((3 < length (trace (run w g)))%nat ->
   exists diff_url comments_url statuses_url review,
     reaches_report w g diff_url comments_url statuses_url review).
Proof.
  split; [|apply four_calls_reach_report].
  intros diff_url comments_url statuses_url review H.
  destruct (run_reported_status w g _ _ _ _ H) as (prompt & data & Ht & Hs & Hd).
  exists prompt, data, (fst (status_of (verdict review))),
    (snd (status_of (verdict review))).
  repeat split; try assumption.
  destruct (verdict review); reflexivity.
Qed.

Lemma status_mapping_witness :
  reaches_report (Sample.reviewing (inr "Fine. ✅ **APPROVE**"))
    Sample.opened Sample.diff_url Sample.comments_url Sample.statuses_url
    "Fine. ✅ **APPROVE**" /\
  (exists prompt data state description,
     trace (run (Sample.reviewing (inr "Fine. ✅ **APPROVE**"))
              Sample.opened) =
       [HttpGet Sample.diff_url (diff_headers Sample.opened); Generate prompt;
        HttpPost Sample.comments_url
          (JObj {[ "body" := JStr ("Fine. ✅ **APPROVE**" ++ ATTRIBUTION) ]})
          (json_headers Sample.opened);
        HttpPost Sample.statuses_url (JObj data)
          (json_headers Sample.opened)] /\
     data !! "state" = Some (JStr state) /\
     data !! "description" = Some (JStr description) /\
     (state, description) =
       match verdict "Fine. ✅ **APPROVE**" with
       | ChangesRequested =>
         ("failure", "AI Review failed: Changes Requested.")
       | Approved => ("success", "AI Review passed successfully.")
       | Inconclusive => ("error", "AI Review was inconclusive.")
       end) /\
  exists diff_url comments_url statuses_url review,
    reaches_report (Sample.reviewing (inr "Fine. ✅ **APPROVE**"))
      Sample.opened diff_url comments_url statuses_url review.
Proof.
  assert (H : reaches_report (Sample.reviewing (inr "Fine. ✅ **APPROVE**"))
                Sample.opened Sample.diff_url Sample.comments_url
                Sample.statuses_url "Fine. ✅ **APPROVE**").
  { apply sample_reaches_report. reflexivity. }
  split; [exact H|]. split.
  - apply (proj1 (status_mapping _ _) _ _ _ _ H).
  - apply (proj2 (status_mapping
                    (Sample.reviewing (inr "Fine. ✅ **APPROVE**"))
                    Sample.opened)).
    vm_compute. lia.
Defined.

(** C4, as the code has it.  An event that has no [pull_request] key, or
    whose [action] is not one of opened, reopened, synchronize, makes no
    outbound call at all, whatever the shape of its decoded payload: no
    diff fetch, no model call, no comment, no status.  When the decoded
    payload is a JSON object, the run of such an event returns at once and
    the process ends with exit code 0. *)
Theorem filtered_event_no_call (w : World) (g : Globals) :
  (~ (exists pr, passes_filter (payload g) pr) -> trace (run w g) = []) /\
  (forall ev : gmap pystr json,
     payload g = JObj ev -> filtered_out ev ->
     run w g = ([], Done tt) /\
     (loaded w g ->
      trace (main w) = [] /\ result (main w) = Done tt /\
      exit_code (result (main w)) = 0)).
Proof.
  split; [apply run_not_passing|].
  intros ev Hp Hf. pose proof (run_filtered_out w g ev Hp Hf) as Hrun.
  split; [exact Hrun|]. intros Hl.
  rewrite (main_loaded w g Hl), Hrun. repeat split.
Qed.

Lemma filtered_event_no_call_witness :
  run (Sample.world (Sample.event "closed") 200 "+ x"
         (inr "Fine. ✅ **APPROVE**"))
      (Sample.globals (Sample.event "closed")) = ([], Done tt) /\
  exit_code
    (result (main (Sample.world (Sample.event "closed") 200 "+ x"
                     (inr "Fine. ✅ **APPROVE**")))) = 0 /\
  run (Sample.world (JObj {[ "action" := JStr "opened" ]}) 200
         "+ x" (inr "Fine. ✅ **APPROVE**"))
      (Sample.globals (JObj {[ "action" := JStr "opened" ]}))
    = ([], Done tt) /\
  trace (run (Sample.world (JInt 5) 200 "+ x" (inr "Fine. ✅ **APPROVE**"))
           (Sample.globals (JInt 5))) = [].
Proof.
  assert (Hclosed : filtered_out
            {[ "action" := JStr "closed"; "pull_request" := Sample.pr ]}).
  { right. intros (a & Ha & Hin). vm_compute in Ha. injection Ha as <-.
    apply list_elem_of_In in Hin. vm_compute in Hin.
    intuition discriminate. }
  split; [|split; [|split]].
  - apply (proj2 (filtered_event_no_call _
                    (Sample.globals (Sample.event "closed"))) _ eq_refl
             Hclosed).
  - apply (proj2 (filtered_event_no_call _
                    (Sample.globals (Sample.event "closed"))) _ eq_refl
             Hclosed).
    apply sample_loaded.
  - apply (proj2 (filtered_event_no_call _
                    (Sample.globals (JObj {[ "action" := JStr "opened" ]})))
             {[ "action" := JStr "opened" ]} eq_refl).
    left. vm_compute. reflexivity.
  - apply (proj1 (filtered_event_no_call _ (Sample.globals (JInt 5)))).
    intros (pr & ev & a & Hp & _). discriminate.
Defined.

(** C4, as the specification states it, fails: the payload "5" decodes
    to a number, which has no [pull_request] key; the membership test of
    step 1 raises [TypeError], and the process ends with exit code 1, not
    as a successful no-op. *)
Lemma filtered_event_counterexample :
  loaded SampleFault.scalar_world (Sample.globals (JInt 5)) /\
  ~ (exists pr, passes_filter (payload (Sample.globals (JInt 5))) pr) /\
  main SampleFault.scalar_world = ([], Raised TypeError) /\
  exit_code (result (main SampleFault.scalar_world)) = 1 /\
  exit_code (result (main SampleFault.scalar_world)) <> 0.
Proof.
  split.
  { exists "5". repeat split; try (vm_compute; reflexivity);
      vm_compute; discriminate. }
  split.
  { intros (pr & ev & a & Hp & _). discriminate. }
  assert (Hm : main SampleFault.scalar_world = ([], Raised TypeError))
    by (vm_compute; reflexivity).
  rewrite Hm. repeat split. discriminate.
Qed.

(** C5. When the diff fetch is answered with status 200, [get_pr_diff]
    returns the body as text; with any other status it returns [None], and
    the run of an event that passed the filter ends there: the GET is its
    only call, so the model is not invoked and nothing is posted. *)
Theorem diff_fetch_status (w : World) (g : Globals) (diff_url : json)
    (resp : Response) :
  requests_get w diff_url (diff_headers g) = inr resp ->
  (status_code resp = 200 ->
   get_pr_diff w g diff_url =
     ([HttpGet diff_url (diff_headers g)], Done (Some (text resp)))) /\
  (status_code resp <> 200 ->
   get_pr_diff w g diff_url =
     ([HttpGet diff_url (diff_headers g)], Done None) /\
   forall pr comments_url statuses_url,
     passes_filter (payload g) pr ->
     has_urls pr diff_url comments_url statuses_url ->
     run w g = ([HttpGet diff_url (diff_headers g)], Done tt)).
Proof.
  intros Hget. rewrite (get_pr_diff_answer w g _ _ Hget). split.
  - intros ->. reflexivity.
  - intros Hne. apply Z.eqb_neq in Hne. rewrite Hne.
    split; [reflexivity|]. intros pr cu su Hf Hu.
    apply (run_no_diff w g pr diff_url cu su resp Hf Hu Hget).
    left. apply Z.eqb_neq. exact Hne.
Qed.

Lemma diff_fetch_status_witness :
  get_pr_diff (Sample.reviewing (inr "Fine. ✅ **APPROVE**"))
    Sample.opened Sample.diff_url =
    ([HttpGet Sample.diff_url (diff_headers Sample.opened)],
     Done (Some "+ x")) /\
  run (Sample.world (Sample.event "opened") 404 "Not Found"
         (inr "Fine. ✅ **APPROVE**")) Sample.opened =
    ([HttpGet Sample.diff_url (diff_headers Sample.opened)], Done tt).
Proof.
  split.
  - apply (proj1 (diff_fetch_status
                    (Sample.reviewing (inr "Fine. ✅ **APPROVE**"))
                    Sample.opened Sample.diff_url
                    {| status_code := 200; text := "+ x" |} eq_refl)).
    reflexivity.
  - apply (proj2 (diff_fetch_status
                    (Sample.world (Sample.event "opened") 404
                       "Not Found" (inr "Fine. ✅ **APPROVE**"))
                    Sample.opened Sample.diff_url
                    {| status_code := 404; text := "Not Found" |} eq_refl))
      with (pr := Sample.pr) (comments_url := Sample.comments_url)
           (statuses_url := Sample.statuses_url).
    + simpl. lia.
    + apply sample_passes, list_elem_of_here.
    + apply sample_urls.
Defined.

(** C8. When the event payload is unset or empty, or does not parse as
    JSON, or when the source-control token or the API key of the generation
    service is unset or empty, the process exits with code 1 and has made
    no call: no diff fetch, no model call, no comment, no status. *)
Theorem configuration_error_exit (w : World) :
  missing (environ w "GITHUB_PAYLOAD") \/
  (exists s, environ w "GITHUB_PAYLOAD" = Some s /\
             json_loads w s = None) \/
  missing (environ w "GITHUB_TOKEN") \/
  missing (environ w "GOOGLE_API_KEY") ->
  trace (main w) = [] /\ result (main w) = Exited 1 /\
  exit_code (result (main w)) <> 0.
Proof.
  intros H. assert (Hm : main w = ([], Exited 1)).
  { unfold main, missing in *.
    destruct (environ w "GITHUB_PAYLOAD") as [[|c pj]|] eqn:Ep;
      cbn [env_truthy truthy negb default from_option id]; try reflexivity.
    destruct (json_loads w (c :: pj)) as [p|] eqn:El; try reflexivity.
    destruct (environ w "GITHUB_TOKEN") as [[|c1 tok]|] eqn:Et;
      cbn [env_truthy truthy negb orb]; try reflexivity.
    destruct (environ w "GOOGLE_API_KEY") as [[|c2 key]|] eqn:Ek;
      cbn [env_truthy truthy negb orb]; try reflexivity.
    exfalso.
    destruct H as [[H|H]|[(s & H1 & H2)|[[H|H]|[H|H]]]]; congruence. }
  rewrite Hm. repeat split. discriminate.
Qed.

Lemma configuration_error_exit_witness :
  trace (main Sample.world_no_token) = [] /\
  result (main Sample.world_no_token) = Exited 1 /\
  exit_code (result (main Sample.world_no_token)) <> 0.
Proof.
  apply configuration_error_exit.
  right. right. left. left. vm_compute. reflexivity.
Defined.

(** C9. When the diff fetch is answered with status 200 but the body is
    empty or made of white space only, the run of an event that passed the
    filter ends silently after the GET: the model is not invoked and
    nothing is posted. *)
Theorem blank_diff_ends_run (w : World) (g : Globals)
    (pr diff_url comments_url statuses_url : json) (resp : Response) :
  passes_filter (payload g) pr ->
  has_urls pr diff_url comments_url statuses_url ->
  requests_get w diff_url (diff_headers g) = inr resp ->
  status_code resp = 200 -> blank (text resp) ->
  run w g = ([HttpGet diff_url (diff_headers g)], Done tt).
Proof.
  intros Hf Hu Hget _ Hb.
  apply (run_no_diff w g pr diff_url comments_url statuses_url resp Hf Hu Hget).
  right. exact Hb.
Qed.

Lemma blank_diff_ends_run_witness :
  run (Sample.world (Sample.event "opened") 200 (LF ++ "  " ++ LF)
         (inr "Fine. ✅ **APPROVE**")) Sample.opened =
    ([HttpGet Sample.diff_url (diff_headers Sample.opened)], Done tt) /\
  run (Sample.world (Sample.event "opened") 200 []
         (inr "Fine. ✅ **APPROVE**")) Sample.opened =
    ([HttpGet Sample.diff_url (diff_headers Sample.opened)], Done tt).
Proof.
  split.
  - apply (blank_diff_ends_run _ _ Sample.pr Sample.diff_url
             Sample.comments_url Sample.statuses_url
             {| status_code := 200; text := LF ++ "  " ++ LF |}).
    + apply sample_passes, list_elem_of_here.
    + apply sample_urls.
    + reflexivity.
    + reflexivity.
    + apply blank_forallb. vm_compute. reflexivity.
  - apply (blank_diff_ends_run _ _ Sample.pr Sample.diff_url
             Sample.comments_url Sample.statuses_url
             {| status_code := 200; text := [] |}).
    + apply sample_passes, list_elem_of_here.
    + apply sample_urls.
    + reflexivity.
    + reflexivity.
    + apply blank_forallb. vm_compute. reflexivity.
Defined.

(** C10. When an event passes the filter but its [pull_request] record
    lacks one of the keys diff_url, comments_url, statuses_url, the run
    stops with an uncaught [KeyError] for a missing key before any call is
    made; the process ends with exit code 1, not as a silent skip. *)
Theorem missing_locator_key_error (w : World) (g : Globals) (pr : json)
    (d : gmap pystr json) :
  passes_filter (payload g) pr -> pr = JObj d ->
  d !! "diff_url" = None \/ d !! "comments_url" = None \/
  d !! "statuses_url" = None ->
  exists key,
    key ∈ ["diff_url"; "comments_url"; "statuses_url"] /\
    d !! key = None /\
    trace (run w g) = [] /\ result (run w g) = Raised (KeyError key) /\
    exit_code (result (run w g)) = 1.
Proof.
  intros Hf Hpr Hmiss.
  destruct (run_missing_url w g pr d Hf Hpr Hmiss) as (key & Hrun & Hk & Hd).
  exists key. rewrite Hrun. repeat split; assumption.
Qed.

Lemma missing_locator_key_error_witness :
  exists key,
    key ∈ ["diff_url"; "comments_url"; "statuses_url"] /\
    ({[ "diff_url" := JStr "https://host/pr/1.diff";
        "comments_url" := JStr "https://host/pr/1/comments" ]}
       : gmap pystr json) !! key = None /\
    trace (run (Sample.reviewing (inr "Fine. ✅ **APPROVE**"))
             (Sample.globals
                (JObj {[ "action" := JStr "opened";
                         "pull_request" := Sample.pr_no_statuses ]})))
      = [] /\
    result (run (Sample.reviewing (inr "Fine. ✅ **APPROVE**"))
              (Sample.globals
                 (JObj {[ "action" := JStr "opened";
                          "pull_request" := Sample.pr_no_statuses ]})))
      = Raised (KeyError key) /\
    exit_code
      (result (run (Sample.reviewing (inr "Fine. ✅ **APPROVE**"))
                 (Sample.globals
                    (JObj {[ "action" := JStr "opened";
                             "pull_request" := Sample.pr_no_statuses ]}))))
      = 1.
Proof.
  apply (missing_locator_key_error _ _ Sample.pr_no_statuses).
  - exists {[ "action" := JStr "opened";
              "pull_request" := Sample.pr_no_statuses ]}, "opened".
    repeat split; try apply list_elem_of_here; vm_compute; reflexivity.
  - reflexivity.
  - right. right. vm_compute. reflexivity.
Defined.

Section CommentFacts.

Variable w : World.
Variable g : Globals.

(** Steps 1 to 5: the comment is the third call of a run that has a diff
    to review, whatever becomes of the POST. *)
Lemma run_commented diff_url comments_url statuses_url diff_text
    pr_title login review :
  reviewable w g diff_url comments_url statuses_url diff_text
    pr_title login ->
  result (analyze_code_with_gemini w diff_text pr_title login)
    = Done review ->
  exists prompt rest,
    trace (analyze_code_with_gemini w diff_text pr_title login)
      = [Generate prompt] /\
    trace (run w g) =
      [HttpGet diff_url (diff_headers g); Generate prompt;
       HttpPost comments_url
         (JObj {[ "body" := JStr (review ++ ATTRIBUTION) ]})
         (json_headers g)] ++ rest.
Proof.
  intros Hable Hrev. rewrite (run_reviewed w g _ _ _ _ _ _ _ Hable Hrev).
  rewrite analyze_trace. eexists. rewrite bind_done.
  pose proof (post_comment_post w g comments_url review) as Ht.
  destruct (post_comment w g comments_url review) as [tc rc].
  cbn [trace fst] in Ht. subst tc.
  destruct rc as [u|e|c].
  - rewrite bind_done. cbn [trace result fst snd app]. eexists.
    split; reflexivity.
  - rewrite bind_raised. cbn [trace result fst snd app]. exists [].
    split; reflexivity.
  - cbn [bind trace result fst snd app]. exists []. split; reflexivity.
Qed.

(** When the model raises, the review text is the synthesized one. *)
Lemma analyze_model_fails diff_text pr_title login e :
  model_fails w diff_text pr_title login e ->
  result (analyze_code_with_gemini w diff_text pr_title login)
    = Done (ai_error_text e).
Proof.
  intros (prompt & Ht & He). rewrite analyze_trace in Ht.
  injection Ht as Ht. unfold analyze_code_with_gemini, result. cbn [snd].
  unfold TRUNCATION_NOTICE in Ht. rewrite Ht, He. reflexivity.
Qed.

End CommentFacts.

(** C7. [post_comment] makes one POST to the locator it is given, and the
    body of that POST is the text followed by the attribution
    "\n\n_— Reviewed by OS-Maintainer Bot 🤖_"; in a run that has a diff to
    review, the comment is the third call, it goes to the [comments_url]
    of the pull request, and its text is the review text.  No other run
    makes a third call. *)
Theorem comment_body (w : World) (g : Globals) :
  (forall (comments_url : json) (body : pystr),
     trace (post_comment w g comments_url body) =
       [HttpPost comments_url
          (JObj {[ "body" :=
                     JStr (body ++ LF ++ LF
                             ++ "_— Reviewed by OS-Maintainer Bot 🤖_") ]})
          (json_headers g)]) /\
  (forall diff_url comments_url statuses_url diff_text pr_title login review,
     reviewable w g diff_url comments_url statuses_url diff_text
       pr_title login ->
     result (analyze_code_with_gemini w diff_text pr_title login)
       = Done review ->
     exists prompt rest,
       trace (run w g) =
         [HttpGet diff_url (diff_headers g); Generate prompt;
          HttpPost comments_url
            (JObj {[ "body" :=
                       JStr (review ++ LF ++ LF
                               ++ "_— Reviewed by OS-Maintainer Bot 🤖_") ]})
            (json_headers g)] ++ rest) /\
  ((2 < length (trace (run w g)))%nat ->
   exists diff_url comments_url statuses_url diff_text pr_title login,
     reviewable w g diff_url comments_url statuses_url diff_text
       pr_title login).
Proof.
  split; [|split].
  - intros. apply post_comment_post.
  - intros du cu su diff_text pr_title login review Hable Hrev.
    destruct (run_commented w g _ _ _ _ _ _ _ Hable Hrev)
      as (prompt & rest & _ & H).
    exists prompt, rest. exact H.
  - apply three_calls_reviewable.
Qed.

Lemma comment_body_witness :
  exists prompt rest,
    trace (run (Sample.reviewing (inr "Fine. ✅ **APPROVE**"))
             Sample.opened) =
      [HttpGet Sample.diff_url (diff_headers Sample.opened); Generate prompt;
       HttpPost Sample.comments_url
         (JObj {[ "body" :=
                    JStr ("Fine. ✅ **APPROVE**" ++ LF ++ LF
                            ++ "_— Reviewed by OS-Maintainer Bot 🤖_") ]})
         (json_headers Sample.opened)] ++ rest.
Proof.
  apply (proj1 (proj2 (comment_body
                         (Sample.reviewing (inr "Fine. ✅ **APPROVE**"))
                         Sample.opened))
           Sample.diff_url Sample.comments_url Sample.statuses_url
           "+ x" (JStr "Fix parser") (JStr "alice")).
  - apply sample_reviewable.
  - reflexivity.
Defined.

(** C6, as the code has it. A failure of the generation service is not
    propagated: [analyze_code_with_gemini] returns a text that carries the
    "AI Error" marker and the description of the failure, and the run posts
    that text as its comment.  The status that follows is the verdict of
    that text: when the description of the failure contains neither verdict
    marker and the comment was posted, the status POST has state "error"
    and the description "AI Review was inconclusive.". *)
Theorem model_failure_reported (w : World) (g : Globals)
    (diff_url comments_url statuses_url : json) (diff_text : pystr)
    (pr_title login : json) (e : pyexception) :
  model_fails w diff_text pr_title login e ->
  result (analyze_code_with_gemini w diff_text pr_title login)
    = Done (ai_error_text e) /\
  Substring "AI Error" (ai_error_text e) /\
  Substring (exc_str e) (ai_error_text e) /\
  (reviewable w g diff_url comments_url statuses_url diff_text
     pr_title login ->
   (exists prompt rest,
      generate_content w prompt = inl e /\
      trace (run w g) =
        [HttpGet diff_url (diff_headers g); Generate prompt;
         HttpPost comments_url
           (JObj {[ "body" := JStr (ai_error_text e ++ ATTRIBUTION) ]})
           (json_headers g)] ++ rest) /\
   (comment_posted w g comments_url (ai_error_text e) ->
    ~ Substring "⚠️ **REQUEST CHANGES**" (exc_str e) ->
    ~ Substring "✅ **APPROVE**" (exc_str e) ->
    exists prompt data,
      trace (run w g) =
        [HttpGet diff_url (diff_headers g); Generate prompt;
         HttpPost comments_url
           (JObj {[ "body" := JStr (ai_error_text e ++ ATTRIBUTION) ]})
           (json_headers g);
         HttpPost statuses_url (JObj data) (json_headers g)] /\
      data !! "state" = Some (JStr "error") /\
      data !! "description"
        = Some (JStr "AI Review was inconclusive."))).
Proof.
  intros Hfail. pose proof (analyze_model_fails w _ _ _ _ Hfail) as Hrev.
  split; [exact Hrev|].
  split; [apply ai_error_text_parts|]. split; [apply ai_error_text_parts|].
  intros Hable. split.
  - destruct (run_commented w g _ _ _ _ _ _ _ Hable Hrev)
      as (prompt & rest & Hp & Ht).
    destruct Hfail as (prompt' & Hp' & He).
    assert (prompt' = prompt) as -> by congruence.
    exists prompt, rest. split; assumption.
  - intros Hpost Hrc Hap.
    assert (Hreach : reaches_report w g diff_url comments_url statuses_url
                       (ai_error_text e)).
    { exists diff_text, pr_title, login.
      split; [exact Hable|]. split; [exact Hrev | exact Hpost]. }
    destruct (run_reported_status w g _ _ _ _ Hreach)
      as (prompt & data & Ht & Hs & Hd).
    rewrite (ai_error_text_verdict e Hrc Hap) in Hs, Hd.
    cbn [status_of fst snd] in Hs, Hd.
    exists prompt, data. split; [exact Ht|]. split; [exact Hs | exact Hd].
Qed.

Lemma sample_model_fails e :
  model_fails (Sample.reviewing (inl e)) "+ x" (JStr "Fix parser")
    (JStr "alice") e.
Proof. eexists. split; reflexivity. Qed.

Lemma model_failure_reported_witness :
  result (analyze_code_with_gemini (Sample.reviewing (inl Sample.quota_failure))
            "+ x" (JStr "Fix parser") (JStr "alice"))
    = Done (ai_error_text Sample.quota_failure) /\
  exists prompt data,
    trace (run (Sample.reviewing (inl Sample.quota_failure)) Sample.opened) =
      [HttpGet Sample.diff_url (diff_headers Sample.opened); Generate prompt;
       HttpPost Sample.comments_url
         (JObj {[ "body" :=
                    JStr (ai_error_text Sample.quota_failure ++ ATTRIBUTION) ]})
         (json_headers Sample.opened);
       HttpPost Sample.statuses_url (JObj data) (json_headers Sample.opened)] /\
    data !! "state" = Some (JStr "error") /\
    data !! "description" = Some (JStr "AI Review was inconclusive.").
Proof.
  pose proof (model_failure_reported
                (Sample.reviewing (inl Sample.quota_failure)) Sample.opened
                Sample.diff_url Sample.comments_url Sample.statuses_url
                "+ x" (JStr "Fix parser") (JStr "alice") Sample.quota_failure
                (sample_model_fails Sample.quota_failure))
    as (Hrev & _ & _ & Hrun).
  split; [exact Hrev|].
  apply (proj2 (Hrun (sample_reviewable _))).
  - reflexivity.
  - apply str_contains_not_Substring. vm_compute. reflexivity.
  - apply str_contains_not_Substring. vm_compute. reflexivity.
Defined.

(** C6, as the specification states it, fails: the model raises with a description
    that quotes the APPROVE marker, the synthesized text is posted, and the
    status POST that follows has state "success", not "error". *)
Lemma model_failure_status_counterexample :
  model_fails (Sample.reviewing (inl Sample.quoting_failure)) "+ x"
    (JStr "Fix parser") (JStr "alice") Sample.quoting_failure /\
  reviewable (Sample.reviewing (inl Sample.quoting_failure)) Sample.opened
    Sample.diff_url Sample.comments_url Sample.statuses_url "+ x"
    (JStr "Fix parser") (JStr "alice") /\
  exists prompt data,
    trace (run (Sample.reviewing (inl Sample.quoting_failure))
             Sample.opened) =
      [HttpGet Sample.diff_url (diff_headers Sample.opened); Generate prompt;
       HttpPost Sample.comments_url
         (JObj {[ "body" :=
                    JStr (ai_error_text Sample.quoting_failure
                            ++ ATTRIBUTION) ]})
         (json_headers Sample.opened);
       HttpPost Sample.statuses_url (JObj data) (json_headers Sample.opened)] /\
    data !! "state" = Some (JStr "success") /\
    data !! "state" <> Some (JStr "error").
Proof.
  split; [apply sample_model_fails|]. split; [apply sample_reviewable|].
  assert (Hreach : reaches_report
            (Sample.reviewing (inl Sample.quoting_failure)) Sample.opened
            Sample.diff_url Sample.comments_url Sample.statuses_url
            (ai_error_text Sample.quoting_failure)).
  { apply sample_reaches_report. reflexivity. }
  destruct (run_reported_status _ _ _ _ _ _ Hreach)
    as (prompt & data & Ht & Hs & _).
  assert (Hv : verdict (ai_error_text Sample.quoting_failure) = Approved)
    by (vm_compute; reflexivity).
  rewrite Hv in Hs. cbn [status_of fst] in Hs.
  exists prompt, data. split; [exact Ht|]. split; [exact Hs|].
  rewrite Hs. discriminate.
Qed.

(** * Further properties *)

(** ** The shape of a run *)

(** An outcome of [run]: it returned or it raised. *)
Ltac returned_or_raised :=
  first [left; reflexivity | right; eexists; reflexivity].

Section Shape.

Variable w : World.
Variable g : Globals.

(** Every run ends before its first call, or after the GET of the diff, or
    has a diff to review. *)
Lemma run_cases :
  (exists r, run w g = ([], r) /\ (r = Done tt \/ exists e, r = Raised e)) \/
  (exists diff_url r,
     run w g = ([HttpGet diff_url (diff_headers g)], r) /\
     (r = Done tt \/ exists e, r = Raised e)) \/
  (exists diff_url comments_url statuses_url diff_text pr_title login,
     reviewable w g diff_url comments_url statuses_url diff_text
       pr_title login).
Proof.
  destruct (payload g) as [| | | | s|l|ev] eqn:Hp.
  1-6: left; unfold run; rewrite Hp; cbn [py_in py_get];
    rewrite ?bind_raise, ?bind_ret.
  1-4: eexists; split; [reflexivity | returned_or_raised].
  { destruct (str_contains _ s); cbn [negb]; rewrite ?bind_raise;
      eexists; (split; [reflexivity | returned_or_raised]). }
  { destruct (existsb _ l); cbn [negb]; rewrite ?bind_raise;
      eexists; (split; [reflexivity | returned_or_raised]). }
  assert (Hout : filtered_out ev -> exists r,
            run w g = ([], r) /\ (r = Done tt \/ exists e, r = Raised e)).
  { intros Hout. rewrite (run_filtered_out w g ev Hp Hout).
    eexists; split; [reflexivity | returned_or_raised]. }
  destruct (ev !! "pull_request") as [pr|] eqn:Hpr.
  2:{ left. apply Hout. left. exact Hpr. }
  destruct (ev !! "action") as [[| | | |act| |]|] eqn:Ha;
    try (left; apply Hout; right; intros (a & Ha' & _); congruence).
  destruct (decide (act ∈ ["opened"; "reopened"; "synchronize"]))
    as [Hin|Hnin].
  2:{ left. apply Hout. right. intros (a & Ha' & Hin). apply Hnin.
      congruence. }
  clear Hout.
  assert (Hf : passes_filter (payload g) pr).
  { exists ev, act. rewrite Hp. auto. }
  pose proof Hf as Hf'. pass_filter Hf'.
  destruct pr as [| | | | | |d]; cbn [py_getitem]; rewrite ?bind_raise.
  1-6: left; eexists; split; [reflexivity | returned_or_raised].
  destruct (d !! "diff_url") as [du|] eqn:Hdu;
    rewrite ?bind_raise, ?bind_ret.
  2:{ left; eexists; split; [reflexivity | returned_or_raised]. }
  destruct (d !! "comments_url") as [cu|] eqn:Hcu;
    rewrite ?bind_raise, ?bind_ret.
  2:{ left; eexists; split; [reflexivity | returned_or_raised]. }
  destruct (d !! "statuses_url") as [su|] eqn:Hsu;
    rewrite ?bind_raise, ?bind_ret.
  2:{ left; eexists; split; [reflexivity | returned_or_raised]. }
  right.
  destruct (requests_get w du (diff_headers g)) as [e|resp] eqn:Hget.
  { left. unfold get_pr_diff, do_get. rewrite Hget, !bind_raised.
    eexists _, _; split; [reflexivity | returned_or_raised]. }
  rewrite (get_pr_diff_answer w g _ _ Hget), bind_done.
  destruct (status_code resp =? 200) eqn:Hok.
  2:{ left. cbn [trace result fst snd ret app].
      eexists _, _; split; [reflexivity | returned_or_raised]. }
  rewrite blank_test.
  destruct (forallb isspace (text resp)) eqn:Hb.
  { left. cbn [trace result fst snd ret app].
    eexists _, _; split; [reflexivity | returned_or_raised]. }
  destruct (d !! "title") as [pr_title|] eqn:Ht;
    rewrite ?bind_raise, ?bind_ret.
  2:{ left. cbn [trace result fst snd raise app].
      eexists _, _; split; [reflexivity | returned_or_raised]. }
  destruct (d !! "user") as [[| | | | | |u]|] eqn:Hu;
    rewrite ?bind_raise, ?bind_ret; cbn [py_getitem]; rewrite ?bind_raise.
  1-6,8: left; cbn [trace result fst snd raise app];
    eexists _, _; split; [reflexivity | returned_or_raised].
  destruct (u !! "login") as [login|] eqn:Hl;
    rewrite ?bind_raise, ?bind_ret.
  2:{ left. cbn [trace result fst snd raise app].
      eexists _, _; split; [reflexivity | returned_or_raised]. }
  right. exists du, cu, su, (text resp), pr_title, login.
  exists (JObj d), resp.
  split; [exact Hf|]. split; [exists d; auto|].
  split; [exact Hget|]. split; [apply Z.eqb_eq; exact Hok|].
  split; [reflexivity|].
  split; [rewrite <- blank_forallb; congruence|].
  exists d, u. auto.
Qed.

End Shape.

Section Reviewed.

Variable w : World.
Variable g : Globals.

(** [update_pr_status]: the record it posts and how it ends. *)
Lemma update_pr_status_run status_url state description :
  exists data,
    update_pr_status w g status_url state description =
      ([HttpPost status_url (JObj data) (json_headers g)],
       match requests_post w status_url (JObj data) (json_headers g) with
       | inl e => Raised (LibraryError e)
       | inr _ => Done tt
       end) /\
    data !! "state" = Some (JStr state) /\
    data !! "description" = Some (JStr description) /\
    data !! "context" = Some (JStr "OS-Maintainer / AI-Reviewer") /\
    data !! "target_url" =
      Some (from_option JStr JNull (environ w "KESTRA_EXECUTION_URL")) /\
    dom data = {[ "state"; "target_url"; "description"; "context" ]}.
Proof.
  exists {[ "state" := JStr state;
            "target_url" :=
              from_option JStr JNull (environ w "KESTRA_EXECUTION_URL");
            "description" := JStr description;
            "context" := JStr "OS-Maintainer / AI-Reviewer" ]}.
  split.
  - unfold update_pr_status, do_post.
    destruct (requests_post w status_url _ (json_headers g)) as [e|[]];
      reflexivity.
  - repeat split; vm_compute; reflexivity.
Qed.

(** The two ways a run with a diff to review goes on: the comment POST
    raises and the run stops there, or the status POST follows. *)
Lemma run_reviewable_cases diff_url comments_url statuses_url diff_text
    pr_title login :
  reviewable w g diff_url comments_url statuses_url diff_text
    pr_title login ->
  exists prompt review,
    trace (analyze_code_with_gemini w diff_text pr_title login)
      = [Generate prompt] /\
    result (analyze_code_with_gemini w diff_text pr_title login)
      = Done review /\
    ((exists e,
        requests_post w comments_url
          (JObj {[ "body" := JStr (review ++ ATTRIBUTION) ]})
          (json_headers g) = inl e /\
        run w g =
          ([HttpGet diff_url (diff_headers g); Generate prompt;
            HttpPost comments_url
              (JObj {[ "body" := JStr (review ++ ATTRIBUTION) ]})
              (json_headers g)],
           Raised (LibraryError e))) \/
     (comment_posted w g comments_url review /\
      exists data,
        run w g =
          ([HttpGet diff_url (diff_headers g); Generate prompt;
            HttpPost comments_url
              (JObj {[ "body" := JStr (review ++ ATTRIBUTION) ]})
              (json_headers g);
            HttpPost statuses_url (JObj data) (json_headers g)],
           match requests_post w statuses_url (JObj data) (json_headers g)
           with
           | inl e => Raised (LibraryError e)
           | inr _ => Done tt
           end) /\
        data !! "state" = Some (JStr (fst (status_of (verdict review)))) /\
        data !! "description"
          = Some (JStr (snd (status_of (verdict review)))) /\
        data !! "context" = Some (JStr "OS-Maintainer / AI-Reviewer") /\
        data !! "target_url" =
          Some (from_option JStr JNull (environ w "KESTRA_EXECUTION_URL")) /\
        dom data = {[ "state"; "target_url"; "description"; "context" ]})).
Proof.
  intros Hable.
  destruct (analyze_total w diff_text pr_title login) as [review Hrev].
  eexists _, review. split; [apply analyze_trace|]. split; [exact Hrev|].
  rewrite (run_reviewed w g _ _ _ _ _ _ _ Hable Hrev).
  rewrite analyze_trace, bind_done. unfold comment_posted.
  unfold post_comment, do_post.
  change (review ++ LF ++ LF ++ "_— Reviewed by OS-Maintainer Bot 🤖_")
    with (review ++ ATTRIBUTION).
  destruct (requests_post w comments_url _ (json_headers g)) as [e|[]].
  - left. exists e. split; [reflexivity|]. rewrite bind_raised. reflexivity.
  - right. split; [reflexivity|].
    destruct (update_pr_status_run statuses_url
                (fst (status_of (verdict review)))
                (snd (status_of (verdict review))))
      as (data & Hrun & Hfields).
    exists data. split; [|exact Hfields].
    rewrite bind_done, Hrun. reflexivity.
Qed.

End Reviewed.

(** ** Order and authentication of the calls *)

Section Located.

Variable w : World.
Variable g : Globals.


End Located.


(** The two dicts of headers carry the token and their media type. *)
Lemma headers_authenticated (g : Globals) :
  (diff_headers g !! "Authorization" = Some ("token " ++ GITHUB_TOKEN g) /\
   diff_headers g !! "Accept" = Some "application/vnd.github.v3.diff") /\
  (json_headers g !! "Authorization" = Some ("token " ++ GITHUB_TOKEN g) /\
   json_headers g !! "Accept" = Some "application/vnd.github.v3+json").
Proof. repeat split; vm_compute; reflexivity. Qed.

(** X2. Every HTTP call of every run carries the header
    [Authorization: token <GITHUB_TOKEN>]; the GET asks for
    [application/vnd.github.v3.diff] and the POSTs for
    [application/vnd.github.v3+json].  No call goes out without the
    token. *)
Theorem run_calls_authenticated (w : World) (g : Globals) :
  Forall (authenticated g) (trace (run w g)).
Proof.
  destruct (headers_authenticated g) as [Hd Hj].
  destruct (run_cases w g)
    as [(r & Hrun & _)|[(du & r & Hrun & _)
                       |(du & cu & su & diff_text & pr_title & login & Hable)]].
  - rewrite Hrun. constructor.
  - rewrite Hrun. repeat constructor; apply Hd.
  - destruct (run_reviewable_cases w g _ _ _ _ _ _ Hable)
      as (prompt & review & _ & _ & [(e & _ & Hrun)|(_ & data & Hrun & _)]);
      rewrite Hrun; cbn [trace fst];
      repeat (apply Forall_cons; split; [first [exact Hd | exact Hj | exact I]|]);
      apply Forall_nil; exact I.
Qed.

(** ** Exceptions of the three HTTP calls *)

(** X3. When [requests.get] raises, [get_pr_diff] does not catch it: the run
    of an event that passed the filter ends with that exception after the
    GET, its only call.  There is no second attempt. *)
Theorem diff_fetch_exception_ends_run (w : World) (g : Globals)
    (pr diff_url comments_url statuses_url : json) (e : pyexception) :
  passes_filter (payload g) pr ->
  has_urls pr diff_url comments_url statuses_url ->
  requests_get w diff_url (diff_headers g) = inl e ->
  run w g =
    ([HttpGet diff_url (diff_headers g)], Raised (LibraryError e)) /\
  exit_code (result (run w g)) = 1.
Proof.
  intros Hf Hu Hget.
  assert (Hrun : run w g =
            ([HttpGet diff_url (diff_headers g)], Raised (LibraryError e))).
  { pass_filter Hf. read_urls Hu. unfold get_pr_diff, do_get.
    rewrite Hget, !bind_raised. reflexivity. }
  rewrite Hrun. split; reflexivity.
Qed.

Lemma diff_fetch_exception_ends_run_witness :
  run (SampleFault.world (inl SampleFault.timeout) (fun _ => inr tt)
         (inr "Fine. ✅ **APPROVE**")) Sample.opened =
    ([HttpGet Sample.diff_url (diff_headers Sample.opened)],
     Raised (LibraryError SampleFault.timeout)) /\
  exit_code
    (result (run (SampleFault.world (inl SampleFault.timeout)
                    (fun _ => inr tt) (inr "Fine. ✅ **APPROVE**"))
               Sample.opened)) = 1.
Proof.
  apply (diff_fetch_exception_ends_run _ _ Sample.pr Sample.diff_url
           Sample.comments_url Sample.statuses_url).
  - apply sample_passes, list_elem_of_here.
  - apply sample_urls.
  - reflexivity.
Defined.

(** X4. When the POST of the comment raises, the exception is not caught:
    the run ends with it after three calls and no status is posted. *)
Theorem comment_exception_skips_status (w : World) (g : Globals)
    (diff_url comments_url statuses_url : json) (diff_text : pystr)
    (pr_title login : json) (review : pystr) (e : pyexception) :
  reviewable w g diff_url comments_url statuses_url diff_text
    pr_title login ->
  result (analyze_code_with_gemini w diff_text pr_title login)
    = Done review ->
  requests_post w comments_url
    (JObj {[ "body" := JStr (review ++ ATTRIBUTION) ]}) (json_headers g)
    = inl e ->
  exists prompt,
    run w g =
      ([HttpGet diff_url (diff_headers g); Generate prompt;
        HttpPost comments_url
          (JObj {[ "body" := JStr (review ++ ATTRIBUTION) ]})
          (json_headers g)],
       Raised (LibraryError e)).
Proof.
  intros Hable Hrev Hpost.
  destruct (run_reviewable_cases w g _ _ _ _ _ _ Hable)
    as (prompt & review' & _ & Hrev' & Hcases).
  assert (review' = review) as -> by congruence.
  exists prompt.
  destruct Hcases as [(e' & Hpost' & Hrun)|(Hok & _)].
  - assert (e' = e) as -> by congruence. exact Hrun.
  - unfold comment_posted in Hok. congruence.
Qed.

Lemma comment_exception_skips_status_witness :
  exists prompt,
    run (SampleFault.world SampleFault.short_diff
           (SampleFault.post_fails_on "https://host/pr/1/comments")
           (inr "Fine. ✅ **APPROVE**")) Sample.opened =
      ([HttpGet Sample.diff_url (diff_headers Sample.opened); Generate prompt;
        HttpPost Sample.comments_url
          (JObj {[ "body" := JStr ("Fine. ✅ **APPROVE**" ++ ATTRIBUTION) ]})
          (json_headers Sample.opened)],
       Raised (LibraryError SampleFault.timeout)).
Proof.
  apply (comment_exception_skips_status _ _ Sample.diff_url
           Sample.comments_url Sample.statuses_url "+ x"
           (JStr "Fix parser") (JStr "alice")).
  - exists Sample.pr, {| status_code := 200; text := "+ x" |}.
    split; [apply sample_passes, list_elem_of_here|].
    split; [apply sample_urls|].
    split; [reflexivity|]. split; [reflexivity|]. split; [reflexivity|].
    split; [apply sample_not_blank | apply sample_meta].
  - reflexivity.
  - reflexivity.
Defined.

(** X5. In a run that reaches step 6 the record of the status POST has
    exactly the four keys state, target_url, description and context; the
    context is "OS-Maintainer / AI-Reviewer" and the target is the value
    of KESTRA_EXECUTION_URL, or null when it is unset.  The run returns,
    and the process ends with exit code 0, exactly when this last POST
    raises nothing; otherwise it ends with the exception of the POST. *)
Theorem reported_run_outcome (w : World) (g : Globals)
    (diff_url comments_url statuses_url : json) (review : pystr) :
  reaches_report w g diff_url comments_url statuses_url review ->
  exists data,
    last (trace (run w g))
      = Some (HttpPost statuses_url (JObj data) (json_headers g)) /\
    dom data = {[ "state"; "target_url"; "description"; "context" ]} /\
    data !! "context" = Some (JStr "OS-Maintainer / AI-Reviewer") /\
    data !! "target_url" =
      Some (match environ w "KESTRA_EXECUTION_URL" with
            | Some url => JStr url
            | None => JNull
            end) /\
    result (run w g) =
      match requests_post w statuses_url (JObj data) (json_headers g) with
      | inl e => Raised (LibraryError e)
      | inr _ => Done tt
      end.
Proof.
  intros (diff_text & pr_title & login & Hable & Hrev & Hpost).
  destruct (run_reviewable_cases w g _ _ _ _ _ _ Hable)
    as (prompt & review' & _ & Hrev' & Hcases).
  assert (review' = review) as -> by congruence.
  destruct Hcases as [(e & Hpost' & _)|(_ & data & Hrun & _ & _ & Hc & Ht & Hd)].
  - unfold comment_posted in Hpost. congruence.
  - exists data. rewrite Hrun. repeat split; assumption.
Qed.

Lemma reported_run_outcome_witness :
  exists data,
    last (trace (run (Sample.reviewing (inr "Fine. ✅ **APPROVE**"))
                   Sample.opened))
      = Some (HttpPost Sample.statuses_url (JObj data)
                (json_headers Sample.opened)) /\
    dom data = {[ "state"; "target_url"; "description"; "context" ]} /\
    data !! "context" = Some (JStr "OS-Maintainer / AI-Reviewer") /\
    data !! "target_url" = Some JNull /\
    result (run (Sample.reviewing (inr "Fine. ✅ **APPROVE**"))
              Sample.opened) = Done tt.
Proof.
  apply (reported_run_outcome
           (Sample.reviewing (inr "Fine. ✅ **APPROVE**")) Sample.opened
           Sample.diff_url Sample.comments_url Sample.statuses_url
           "Fine. ✅ **APPROVE**").
  apply sample_reaches_report. reflexivity.
Defined.

(** X6. The title and the author of the pull request are read only once a
    diff to review has been fetched.  A record that lacks [title], [user]
    or the [login] of its user then stops the run with a [KeyError] for
    that key (a [TypeError] when [user] is not an object) after the GET:
    the model is not called and nothing is posted. *)
Theorem missing_title_or_author (w : World) (g : Globals)
    (d : gmap pystr json) (diff_url comments_url statuses_url : json)
    (resp : Response) :
  passes_filter (payload g) (JObj d) ->
  has_urls (JObj d) diff_url comments_url statuses_url ->
  requests_get w diff_url (diff_headers g) = inr resp ->
  status_code resp = 200 -> ~ blank (text resp) ->
  (d !! "title" = None ->
   run w g = ([HttpGet diff_url (diff_headers g)],
              Raised (KeyError "title"))) /\
  (is_Some (d !! "title") -> d !! "user" = None ->
   run w g = ([HttpGet diff_url (diff_headers g)],
              Raised (KeyError "user"))) /\
  (forall u, is_Some (d !! "title") -> d !! "user" = Some (JObj u) ->
   u !! "login" = None ->
   run w g = ([HttpGet diff_url (diff_headers g)],
              Raised (KeyError "login"))) /\
  (forall v, is_Some (d !! "title") -> d !! "user" = Some v ->
   (forall u, v <> JObj u) ->
   run w g = ([HttpGet diff_url (diff_headers g)], Raised TypeError)).
Proof.
  intros Hf Hu Hget Hok Hnb.
  assert (Hstep : forall k : option pystr -> M unit,
            (let! code_diff := get_pr_diff w g diff_url in k code_diff)
            = ([HttpGet diff_url (diff_headers g)]
                 ++ trace (k (Some (text resp))),
               result (k (Some (text resp))))).
  { intros k. rewrite (get_pr_diff_answer w g _ _ Hget), Hok. cbn [Z.eqb Pos.eqb].
    apply bind_done. }
  assert (Hnb' : negb (truthy (text resp)) || negb (truthy (strip (text resp)))
                 = false).
  { rewrite blank_test. destruct (forallb isspace (text resp)) eqn:E;
      [apply blank_forallb in E; contradiction | reflexivity]. }
  pass_filter Hf. destruct Hu as (d' & Hd' & Hdu & Hcu & Hsu).
  injection Hd' as <-. cbn [py_getitem].
  rewrite Hdu, bind_ret, Hcu, bind_ret, Hsu, bind_ret, Hstep, Hnb'.
  repeat split.
  - intros Ht. rewrite Ht, bind_raise. reflexivity.
  - intros [t Ht] Hus. rewrite Ht, bind_ret, Hus, bind_raise. reflexivity.
  - intros u [t Ht] Hus Hl. rewrite Ht, bind_ret, Hus, bind_ret.
    cbn [py_getitem]. rewrite Hl, bind_raise. reflexivity.
  - intros v [t Ht] Hus Hv. rewrite Ht, bind_ret, Hus, bind_ret.
    destruct v; cbn [py_getitem]; rewrite ?bind_raise; try reflexivity.
    exfalso. eapply Hv. reflexivity.
Qed.

Lemma missing_title_or_author_witness :
  run (Sample.world SampleFault.untitled_event 200 "+ x"
         (inr "Fine. ✅ **APPROVE**"))
      (Sample.globals SampleFault.untitled_event) =
    ([HttpGet Sample.diff_url
        (diff_headers (Sample.globals SampleFault.untitled_event))],
     Raised (KeyError "title")).
Proof.
  assert (Hf : passes_filter
            (payload (Sample.globals SampleFault.untitled_event))
            (JObj SampleFault.pr_untitled)).
  { exists {[ "action" := JStr "opened";
              "pull_request" := JObj SampleFault.pr_untitled ]}, "opened".
    repeat split; try apply list_elem_of_here; vm_compute; reflexivity. }
  assert (Hu : has_urls (JObj SampleFault.pr_untitled) Sample.diff_url
                 Sample.comments_url Sample.statuses_url).
  { eexists. split; [reflexivity|]. repeat split; vm_compute; reflexivity. }
  apply (proj1 (missing_title_or_author
                  (Sample.world SampleFault.untitled_event 200 "+ x"
                     (inr "Fine. ✅ **APPROVE**"))
                  (Sample.globals SampleFault.untitled_event)
                  SampleFault.pr_untitled Sample.diff_url
                  Sample.comments_url Sample.statuses_url
                  {| status_code := 200; text := "+ x" |}
                  Hf Hu eq_refl eq_refl sample_not_blank)).
  vm_compute. reflexivity.
Defined.

(** ** The process *)

Section Process.

Variable w : World.


(** Section 1 either exits with code 1, having made no call, or hands
    globals that it read from the environment to [run]. *)
Lemma main_cases :
  main w = ([], Exited 1) \/ exists g, loaded w g /\ main w = run w g.
Proof.
  unfold main.
  destruct (environ w "GITHUB_PAYLOAD") as [[|c pj]|] eqn:Ep;
    cbn [env_truthy truthy negb default from_option id]; try (left; reflexivity).
  destruct (json_loads w (c :: pj)) as [p|] eqn:El; try (left; reflexivity).
  destruct (environ w "GITHUB_TOKEN") as [[|c1 tok]|] eqn:Et;
    cbn [env_truthy truthy negb orb]; try (left; reflexivity).
  destruct (environ w "GOOGLE_API_KEY") as [[|c2 key]|] eqn:Ek;
    cbn [env_truthy truthy negb orb default from_option id];
    try (left; reflexivity).
  right. eexists. split; [|reflexivity].
  exists (c :: pj). cbn [payload GITHUB_TOKEN GOOGLE_API_KEY].
  repeat split; try assumption; discriminate.
Qed.

End Process.


(** X8. The process makes an outbound call only when the payload is set
    and decodes and both credentials are set: then the top level has bound
    its globals from the environment and the calls are those of [run]. *)
Theorem calls_need_configuration (w : World) :
  trace (main w) <> [] ->
  exists g, loaded w g /\ main w = run w g.
Proof.
  intros Ht. destruct (main_cases w) as [Hm|H]; [|exact H].
  rewrite Hm in Ht. contradiction Ht. reflexivity.
Qed.

Lemma calls_need_configuration_witness :
  exists g,
    loaded (Sample.reviewing (inr "Fine. ✅ **APPROVE**")) g /\
    main (Sample.reviewing (inr "Fine. ✅ **APPROVE**")) =
      run (Sample.reviewing (inr "Fine. ✅ **APPROVE**")) g.
Proof.
  apply calls_need_configuration. intros H.
  apply (f_equal (@length call)) in H. vm_compute in H. discriminate.
Defined.

(** ** The prompt and the verdict *)

Lemma len_app (a b : pystr) : len (a ++ b) = len a + len b.
Proof. unfold len. rewrite length_app. lia. Qed.

(** The diff as the prompt shows it is never longer than 30021. *)
Lemma shown_diff_bound (diff_text : pystr) :
  len (if len diff_text >? 30000
       then slice_to 30000 diff_text ++ TRUNCATION_NOTICE
       else diff_text) <= 30021.
Proof.
  destruct (len diff_text >? 30000) eqn:E.
  - rewrite len_app. unfold slice_to, len at 1.
    rewrite length_firstn.
    assert (len TRUNCATION_NOTICE = 21) as -> by reflexivity. lia.
  - rewrite Z.gtb_ltb in E. apply Z.ltb_ge in E. lia.
Qed.

(** X9. The size of the prompt does not grow with the diff beyond the cap:
    whatever the diff, the prompt has at most 30303 characters besides the
    title and the login as they are formatted (282 of fixed text, 30000 of
    diff and the 21 of the notice). *)
Theorem prompt_size_bound (w : World) (diff_text : pystr)
    (pr_title user : json) :
  exists prompt,
    trace (analyze_code_with_gemini w diff_text pr_title user)
      = [Generate prompt] /\
    len prompt
      <= 30303 + len (py_format w pr_title) + len (py_format w user).
Proof.
  eexists. split; [apply analyze_trace|].
  pose proof (shown_diff_bound diff_text) as Hb.
  unfold prompt_of, LF. rewrite !len_app.
  repeat match goal with
  | |- context [len (?c :: ?l)] =>
    let n := eval vm_compute in (len (c :: l)) in
    change (len (c :: l)) with n
  end.
  lia.
Qed.

(** X10. The prompt quotes both verdict markers.  A review text that
    contains the prompt, as when the model echoes its instructions, is
    therefore classified ChangesRequested, whatever the diff, the title and
    the author are. *)
Theorem prompt_echo_verdict (w : World) (diff_text : pystr)
    (pr_title user : json) (before after : pystr) :
  verdict (before ++ prompt_of w diff_text pr_title user ++ after)
    = ChangesRequested.
Proof.
  assert (H : Substring REQUEST_CHANGES
                (before ++ prompt_of w diff_text pr_title user ++ after)).
  { exists (before ++ LF
            ++ "    You are 'OS-Maintainer', an expert Senior Software Engineer."
            ++ LF ++ "    Review PR from @" ++ py_format w user
            ++ ". Title: " ++ py_format w pr_title
            ++ ". Code: ```diff " ++ diff_text ++ "```"
            ++ LF ++ "    "
            ++ LF ++ "    Instructions: 1. Check for **Security Leaks** and **Logic Bugs**. 2. Be helpful. 3. Verdict: End with either '✅ **APPROVE**' or '"),
      ("'." ++ LF ++ "    " ++ after).
    unfold prompt_of, REQUEST_CHANGES, LF.
    repeat rewrite <- app_assoc. reflexivity. }
  apply str_contains_Substring in H. unfold verdict. rewrite H. reflexivity.
Qed.

Section VerdictFacts.

Implicit Types needle hay review : pystr.

Lemma Substring_context needle hay before after :
  Substring needle hay -> Substring needle (before ++ hay ++ after).
Proof.
  intros (pre & post & ->). exists (before ++ pre), (post ++ after).
  repeat rewrite <- app_assoc. reflexivity.
Qed.

(** An occurrence in [hay ++ c :: tail] lies in [hay] when the needle has
    no [c] and does not occur in [c :: tail]. *)
Lemma Substring_before_tail needle hay c tail :
  c ∉ needle -> ~ Substring needle (c :: tail) ->
  Substring needle (hay ++ c :: tail) -> Substring needle hay.
Proof.
  intros Hc Htail (pre & post & H).
  apply app_eq_app in H as [l [[-> H]|[-> H]]].
  - symmetry in H. apply app_eq_app in H as [l' [[-> H]|[-> H]]].
    + exists pre, l'. reflexivity.
    + destruct l' as [|c' l'].
      * exists pre, []. rewrite !app_nil_r. reflexivity.
      * exfalso. apply Hc. injection H as -> _.
        apply elem_of_app. right. apply list_elem_of_here.
  - exfalso. apply Htail. exists l, post. exact H.
Qed.

Lemma verdict_ChangesRequested review :
  verdict review = ChangesRequested <-> Substring REQUEST_CHANGES review.
Proof.
  rewrite <- str_contains_Substring. unfold verdict.
  destruct (str_contains REQUEST_CHANGES review);
    [|destruct (str_contains APPROVE review)]; split; congruence.
Qed.

Lemma verdict_Inconclusive review :
  verdict review = Inconclusive <->
  ~ Substring REQUEST_CHANGES review /\ ~ Substring APPROVE review.
Proof.
  rewrite <- !str_contains_not_Substring. unfold verdict.
  destruct (str_contains REQUEST_CHANGES review);
    [|destruct (str_contains APPROVE review)]; split;
    try congruence; try (intros [? ?]; congruence); auto.
Qed.

End VerdictFacts.

(** X11. Text put before or after a review never removes a verdict: a
    ChangesRequested review stays ChangesRequested, an Approved review does
    not become Inconclusive, and a text that is Inconclusive has only
    Inconclusive parts. *)
Theorem verdict_survives_context (before review after : pystr) :
  (verdict review = ChangesRequested ->
   verdict (before ++ review ++ after) = ChangesRequested) /\
  (verdict review = Approved ->
   verdict (before ++ review ++ after) <> Inconclusive) /\
  (verdict (before ++ review ++ after) = Inconclusive ->
   verdict review = Inconclusive).
Proof.
  assert (Hinc : verdict (before ++ review ++ after) = Inconclusive ->
                 verdict review = Inconclusive).
  { rewrite !verdict_Inconclusive. intros [Hrc Hap].
    split; intros H; [apply Hrc | apply Hap];
      apply Substring_context; exact H. }
  split; [|split].
  - rewrite !verdict_ChangesRequested. apply Substring_context.
  - intros Ha Hi. rewrite (Hinc Hi) in Ha. discriminate.
  - exact Hinc.
Qed.

Lemma verdict_survives_context_witness :
  verdict ("> " ++ "Leak. ⚠️ **REQUEST CHANGES**" ++ " (quoted)")
    = ChangesRequested /\
  verdict ("> " ++ "Fine. ✅ **APPROVE**" ++ " (quoted)") <> Inconclusive.
Proof.
  split.
  - apply (proj1 (verdict_survives_context "> "
                    "Leak. ⚠️ **REQUEST CHANGES**" " (quoted)")).
    vm_compute. reflexivity.
  - apply (proj1 (proj2 (verdict_survives_context "> "
                           "Fine. ✅ **APPROVE**" " (quoted)"))).
    vm_compute. reflexivity.
Defined.

(** X12. The attribution that [post_comment] appends holds no verdict
    marker and cannot complete one: the body of the comment as posted has
    the verdict of the review, so the comment and the status agree. *)
Theorem comment_verdict_agrees (review : pystr) :
  verdict (review ++ LF ++ LF ++ "_— Reviewed by OS-Maintainer Bot 🤖_")
    = verdict review.
Proof.
  assert (H : forall needle,
            (needle = REQUEST_CHANGES \/ needle = APPROVE) ->
            str_contains needle
              (review ++ LF ++ LF ++ "_— Reviewed by OS-Maintainer Bot 🤖_")
            = str_contains needle review).
  { intros needle Hn.
    destruct (str_contains needle review) eqn:E.
    - apply str_contains_Substring. apply str_contains_Substring in E.
      exact (Substring_context needle review []
               (LF ++ LF ++ "_— Reviewed by OS-Maintainer Bot 🤖_") E).
    - apply str_contains_not_Substring. apply str_contains_not_Substring in E.
      intros H. apply E. unfold LF in H. cbn [app] in H.
      eapply (Substring_before_tail needle review 10%N); [| |exact H].
      + apply not_elem_of_forallb.
        destruct Hn as [->| ->]; vm_compute; reflexivity.
      + apply str_contains_not_Substring.
        destruct Hn as [->| ->]; vm_compute; reflexivity. }
  unfold verdict. rewrite !H by auto. reflexivity.
Qed.

(** X13. What lies beyond the first 30000 characters of a diff has no
    influence: two diffs longer than 30000 characters that agree on their
    first 30000 give the same prompt, the same call of the model and the
    same review. *)
Theorem truncation_ignores_tail (w : World) (diff1 diff2 : pystr)
    (pr_title user : json) :
  len diff1 > 30000 -> len diff2 > 30000 ->
  slice_to 30000 diff1 = slice_to 30000 diff2 ->
  analyze_code_with_gemini w diff1 pr_title user
    = analyze_code_with_gemini w diff2 pr_title user.
Proof.
  intros H1 H2 Heq. unfold analyze_code_with_gemini.
  assert ((len diff1 >? 30000) = true) as ->
    by (rewrite Z.gtb_ltb; apply Z.ltb_lt; lia).
  assert ((len diff2 >? 30000) = true) as ->
    by (rewrite Z.gtb_ltb; apply Z.ltb_lt; lia).
  rewrite Heq. reflexivity.
Qed.

Lemma truncation_ignores_tail_witness :
  analyze_code_with_gemini (Sample.reviewing (inr "Fine. ✅ **APPROVE**"))
    Sample.long_diff (JStr "Fix parser") (JStr "alice")
  = analyze_code_with_gemini (Sample.reviewing (inr "Fine. ✅ **APPROVE**"))
      SampleFault.other_long_diff (JStr "Fix parser") (JStr "alice").
Proof.
  apply truncation_ignores_tail.
  - vm_compute. reflexivity.
  - vm_compute. reflexivity.
  - unfold SampleFault.other_long_diff, slice_to. symmetry.
    apply take_app_le. unfold Sample.long_diff. rewrite repeat_length. lia.
Defined.

(** ** The imports *)

Section ImportFacts.

Variable h : Host.

(** The handler of [except ImportError], from the steps [tried]. *)
Lemma handler_cases (tried : list host_call) :
  let handler :=
    seq (install h "requests")
      (seq (install h "google-generativeai")
         (seq (import_ h "requests") (import_ h "google.generativeai"))) in
  fst (handler tried) `prefix_of` tried ++ recovery h /\
  (tried ++ [pip_install h "requests"]) `prefix_of` fst (handler tried) /\
  (snd (handler tried) = inr tt -> fst (handler tried) = tried ++ recovery h).
Proof.
  cbn zeta. unfold seq, install, import_, recovery, pip_install.
  destruct (check_call h tried _) as [e1|[]]; cbn [fst snd].
  { split; [apply prefix_app, prefix_cons, prefix_nil|].
    split; [reflexivity | discriminate]. }
  destruct (check_call h (tried ++ _) _) as [e2|[]]; cbn [fst snd].
  { rewrite <- app_assoc. cbn [app].
    split; [apply prefix_app; do 2 apply prefix_cons; apply prefix_nil|].
    split; [apply prefix_app, prefix_cons, prefix_nil | discriminate]. }
  destruct (import_module h (_ ++ _) "requests") as [|e3|e3]; cbn [fst snd].
  2,3: rewrite <- !app_assoc; cbn [app];
    (split; [apply prefix_app; do 3 apply prefix_cons; apply prefix_nil|]);
    (split; [apply prefix_app, prefix_cons, prefix_nil | discriminate]).
  rewrite <- !app_assoc. cbn [app].
  split; [reflexivity|].
  split; [apply prefix_app, prefix_cons, prefix_nil | reflexivity].
Qed.

(** The body of the [try] statement. *)
Lemma try_block :
  seq (import_ h "requests") (import_ h "google.generativeai") [] =
    match import_module h [] "requests" with
    | Imported =>
      ([Import "requests"; Import "google.generativeai"],
       match import_module h [Import "requests"] "google.generativeai" with
       | Imported => inr tt
       | NotFound e => inl (ImportError e)
       | Crashed e => inl (OtherError e)
       end)
    | NotFound e => ([Import "requests"], inl (ImportError e))
    | Crashed e => ([Import "requests"], inl (OtherError e))
    end.
Proof.
  unfold seq, import_. cbn [app].
  destruct (import_module h [] "requests"); reflexivity.
Qed.

(** The [try] statement: the imports went through, or one of them crashed,
    or the handler ran after an [ImportError]. *)
Lemma imports_cases :
  (imports h [] = ([Import "requests"; Import "google.generativeai"], inr tt)
   /\ ~ (exists tried', import_error_after h tried')) \/
  (exists tried e,
     imports h [] = (tried, inl (OtherError e)) /\
     (tried = [Import "requests"] \/
      tried = [Import "requests"; Import "google.generativeai"]) /\
     ~ (exists tried', import_error_after h tried')) \/
  (exists tried,
     import_error_after h tried /\
     imports h [] =
       seq (install h "requests")
         (seq (install h "google-generativeai")
            (seq (import_ h "requests") (import_ h "google.generativeai")))
         tried).
Proof.
  unfold imports, except_ImportError. rewrite try_block.
  destruct (import_module h [] "requests") as [|e|e] eqn:E1.
  - destruct (import_module h [Import "requests"] "google.generativeai")
      as [|e|e] eqn:E2.
    + left. split; [reflexivity|].
      intros (t & [(_ & e' & H)|(_ & _ & e' & H)]); congruence.
    + right. right.
      exists [Import "requests"; Import "google.generativeai"].
      split; [|reflexivity].
      right. split; [reflexivity|]. split; [exact E1|]. eauto.
    + right. left.
      exists [Import "requests"; Import "google.generativeai"], e.
      split; [reflexivity|]. split; [auto|].
      intros (t & [(_ & e' & H)|(_ & _ & e' & H)]); congruence.
  - right. right. exists [Import "requests"]. split; [|reflexivity].
    left. split; [reflexivity|]. eauto.
  - right. left. exists [Import "requests"], e.
    split; [reflexivity|]. split; [auto|].
    intros (t & [(_ & e' & H)|(_ & H & _)]); congruence.
Qed.

End ImportFacts.

(** X14. [pip] is run only to recover from an [ImportError]: section 0 calls
    a subprocess exactly when its first import is not found, or its first
    import goes through and its second is not found.  When both imports go
    through, and when one of them raises another exception, nothing is
    installed. *)
Theorem pip_runs_only_after_import_error (h : Host) :
  (exists argv, CheckCall argv ∈ fst (imports h [])) <->
  (exists tried, import_error_after h tried).
Proof.
  destruct (imports_cases h)
    as [[Hok Hno]|[(tried & e & Hrun & Ht & Hno)|(tried & Herr & Hrun)]].
  - rewrite Hok. cbn [fst]. split; [|intros H; contradiction].
    intros (argv & Hin). apply list_elem_of_In in Hin. cbn in Hin.
    intuition discriminate.
  - rewrite Hrun. cbn [fst]. split; [|intros H; contradiction].
    intros (argv & Hin). apply list_elem_of_In in Hin.
    destruct Ht as [-> | ->]; cbn in Hin; intuition discriminate.
  - split; [intros _; eauto|]. intros _.
    exists [sys_executable h; "-m"; "pip"; "install"; "requests"].
    rewrite Hrun.
    destruct (handler_cases h tried) as (_ & Hpre & _).
    destruct Hpre as [k Hk]. cbn zeta in Hk. rewrite Hk.
    apply elem_of_app. left. apply elem_of_app. right.
    apply list_elem_of_here.
Qed.

(** X15. The steps of section 0 follow one fixed order: the import of
    requests, possibly the import of google.generativeai, and then, only as
    a whole recovery, [pip install requests], [pip install
    google-generativeai] and both imports again.  pip always runs as
    [sys.executable -m pip install <package>], requests first; the section
    ends well only after the two first imports alone or after the whole
    recovery. *)
Theorem imports_steps_in_order (h : Host) :
  exists tried,
    (tried = [Import "requests"] \/
     tried = [Import "requests"; Import "google.generativeai"]) /\
    tried `prefix_of` fst (imports h []) /\
    fst (imports h []) `prefix_of`
      tried ++ [CheckCall [sys_executable h; "-m"; "pip"; "install";
                           "requests"];
                CheckCall [sys_executable h; "-m"; "pip"; "install";
                           "google-generativeai"];
                Import "requests"; Import "google.generativeai"] /\
    (snd (imports h []) = inr tt ->
     fst (imports h []) = [Import "requests"; Import "google.generativeai"] \/
     fst (imports h []) =
       tried ++ [CheckCall [sys_executable h; "-m"; "pip"; "install";
                            "requests"];
                 CheckCall [sys_executable h; "-m"; "pip"; "install";
                            "google-generativeai"];
                 Import "requests"; Import "google.generativeai"]).
Proof.
  change [CheckCall [sys_executable h; "-m"; "pip"; "install"; "requests"];
          CheckCall [sys_executable h; "-m"; "pip"; "install";
                     "google-generativeai"];
          Import "requests"; Import "google.generativeai"]
    with (recovery h).
  destruct (imports_cases h)
    as [[Hok _]|[(tried & e & Hrun & Ht & _)|(tried & Herr & Hrun)]].
  - exists [Import "requests"; Import "google.generativeai"].
    rewrite Hok. cbn [fst snd].
    split; [auto|]. split; [reflexivity|].
    split; [apply prefix_app_r; reflexivity | auto].
  - exists tried. rewrite Hrun. cbn [fst snd].
    split; [exact Ht|]. split; [reflexivity|].
    split; [apply prefix_app_r; reflexivity | discriminate].
  - exists tried. rewrite Hrun.
    destruct (handler_cases h tried) as (Hup & Hlow & Hend).
    cbn zeta in Hup, Hlow, Hend.
    split; [destruct Herr as [[-> _]|[-> _]]; auto|].
    split; [etransitivity; [apply prefix_app_r; reflexivity | exact Hlow]|].
    split; [exact Hup|]. intros H. right. apply Hend. exact H.
Qed.

(** X16. When [pip install requests] fails, its exception is not caught:
    google-generativeai is not installed, nothing is imported again, the
    configuration is not read, no call of the pipeline is made and the
    process ends with exit code 1. *)
Theorem failed_install_stops_script (h : Host) (w : World)
    (tried : list host_call) (e : pyexception) :
  import_error_after h tried ->
  check_call h tried [sys_executable h; "-m"; "pip"; "install"; "requests"]
    = inl e ->
  script h w =
    (tried ++ [CheckCall [sys_executable h; "-m"; "pip"; "install";
                          "requests"]],
     ([], Raised (LibraryError e))) /\
  exit_code (result (snd (script h w))) = 1.
Proof.
  intros Herr Hpip.
  assert (Hrun : imports h [] =
            (tried ++ [CheckCall [sys_executable h; "-m"; "pip"; "install";
                                  "requests"]],
             inl (OtherError e))).
  { destruct (imports_cases h)
      as [[_ Hno]|[(t & e' & _ & _ & Hno)|(t & Herr' & Hrun)]];
      try (exfalso; apply Hno; eauto).
    assert (t = tried) as ->.
    { destruct Herr as [(-> & e1 & H1)|(-> & H1 & e2 & H2)];
        destruct Herr' as [(-> & e1' & H1')|(-> & H1' & e2' & H2')];
        congruence. }
    rewrite Hrun. unfold seq at 1, install at 1. rewrite Hpip. reflexivity. }
  unfold script. rewrite Hrun. split; reflexivity.
Qed.

Lemma failed_install_stops_script_witness :
  script SampleHost.offline (Sample.reviewing (inr "Fine. ✅ **APPROVE**")) =
    ([Import "requests";
      CheckCall ["/usr/bin/python3"; "-m"; "pip"; "install"; "requests"]],
     ([], Raised (LibraryError SampleHost.pip_failed))) /\
  exit_code
    (result (snd (script SampleHost.offline
                    (Sample.reviewing (inr "Fine. ✅ **APPROVE**"))))) = 1.
Proof.
  apply (failed_install_stops_script SampleHost.offline
           (Sample.reviewing (inr "Fine. ✅ **APPROVE**"))
           [Import "requests"] SampleHost.pip_failed).
  - left. split; [reflexivity|]. eexists. reflexivity.
  - reflexivity.
Defined.

(** X17. When the recovery goes through (both installations return and
    both packages are then imported), section 0 has made exactly the steps
    of the failed try followed by the four steps of the recovery, and the
    script goes on with its top level as if the imports had gone through
    at once. *)
Theorem recovered_imports_run_main (h : Host) (w : World)
    (tried : list host_call) :
  import_error_after h tried ->
  snd (imports h []) = inr tt ->
  script h w =
    (tried ++ [CheckCall [sys_executable h; "-m"; "pip"; "install";
                          "requests"];
               CheckCall [sys_executable h; "-m"; "pip"; "install";
                          "google-generativeai"];
               Import "requests"; Import "google.generativeai"],
     main w).
Proof.
  intros Herr Hok.
  destruct (imports_cases h)
    as [[_ Hno]|[(t & e' & _ & _ & Hno)|(t & Herr' & Hrun)]];
    try (exfalso; apply Hno; eauto).
  assert (t = tried) as ->.
  { destruct Herr as [(-> & e1 & H1)|(-> & H1 & e2 & H2)];
      destruct Herr' as [(-> & e1' & H1')|(-> & H1' & e2' & H2')];
      congruence. }
  destruct (handler_cases h tried) as (_ & _ & Hend). cbn zeta in Hend.
  rewrite <- Hrun in Hend. specialize (Hend Hok).
  unfold script. destruct (imports h []) as [steps r].
  cbn [fst snd] in Hend, Hok. subst steps r. reflexivity.
Qed.

Lemma recovered_imports_run_main_witness :
  script SampleHost.fresh (Sample.reviewing (inr "Fine. ✅ **APPROVE**")) =
    ([Import "requests"; Import "google.generativeai";
      CheckCall ["/usr/bin/python3"; "-m"; "pip"; "install"; "requests"];
      CheckCall ["/usr/bin/python3"; "-m"; "pip"; "install";
                 "google-generativeai"];
      Import "requests"; Import "google.generativeai"],
     main (Sample.reviewing (inr "Fine. ✅ **APPROVE**"))).
Proof.
  apply (recovered_imports_run_main SampleHost.fresh
           (Sample.reviewing (inr "Fine. ✅ **APPROVE**"))
           [Import "requests"; Import "google.generativeai"]).
  - right. split; [reflexivity|]. split; [reflexivity|].
    eexists. reflexivity.
  - reflexivity.
Defined.

(** ** Events of another shape *)

(** X18. A decoded payload that is not a JSON object is not skipped in
    silence when the membership test or [.get] does not apply to it: a
    number, a boolean or null raises [TypeError]; a string or an array
    that contains "pull_request" raises [AttributeError]; a string or an
    array that does not contain it makes the run return.  In every case no
    call is made. *)
Theorem non_object_payload (w : World) (g : Globals) :
  ((payload g = JNull \/ (exists b, payload g = JBool b) \/
    (exists z, payload g = JInt z) \/ (exists f, payload g = JFloat f)) ->
   run w g = ([], Raised TypeError)) /\
  (forall s, payload g = JStr s ->
   (Substring "pull_request" s -> run w g = ([], Raised AttributeError)) /\
   (~ Substring "pull_request" s -> run w g = ([], Done tt))) /\
  (forall l, payload g = JArr l ->
   (JStr "pull_request" ∈ l -> run w g = ([], Raised AttributeError)) /\
   (JStr "pull_request" ∉ l -> run w g = ([], Done tt))).
Proof.
  split; [|split].
  - intros [H|[[b H]|[[z H]|[f H]]]]; unfold run; rewrite H; reflexivity.
  - intros s H. unfold run. rewrite H. cbn [py_in]. rewrite bind_ret.
    split; intros Hs.
    + apply str_contains_Substring in Hs. rewrite Hs. reflexivity.
    + apply str_contains_not_Substring in Hs. rewrite Hs. reflexivity.
  - intros l H. unfold run. rewrite H. cbn [py_in]. rewrite bind_ret.
    split; intros Hl.
    + assert (Hex : existsb (fun x => match x with
                                      | JStr s => bool_decide (s = "pull_request")
                                      | _ => false
                                      end) l = true).
      { apply existsb_exists. exists (JStr "pull_request").
        split; [apply list_elem_of_In; exact Hl|].
        apply bool_decide_eq_true. reflexivity. }
      rewrite Hex. reflexivity.
    + assert (Hex : existsb (fun x => match x with
                                      | JStr s => bool_decide (s = "pull_request")
                                      | _ => false
                                      end) l = false).
      { apply not_true_is_false. intros Hex.
        apply existsb_exists in Hex as (x & Hin & Hx). apply Hl.
        destruct x; try discriminate.
        apply bool_decide_eq_true in Hx. subst s.
        apply list_elem_of_In. exact Hin. }
      rewrite Hex. reflexivity.
Qed.

Lemma non_object_payload_witness :
  run (Sample.world (JInt 5) 200 "+ x" (inr "Fine. ✅ **APPROVE**"))
      (Sample.globals (JInt 5)) = ([], Raised TypeError) /\
  run (Sample.world (JArr [JStr "pull_request"]) 200 "+ x"
         (inr "Fine. ✅ **APPROVE**"))
      (Sample.globals (JArr [JStr "pull_request"]))
    = ([], Raised AttributeError).
Proof.
  split.
  - apply (proj1 (non_object_payload _ (Sample.globals (JInt 5)))).
    right. right. left. exists 5. reflexivity.
  - apply (proj2 (proj2 (non_object_payload _
                           (Sample.globals (JArr [JStr "pull_request"]))))
             [JStr "pull_request"] eq_refl).
    apply list_elem_of_here.
Defined.

(** X19. When an event passes the filter but its [pull_request] entry is
    not an object (null, a string, a number, an array), the first subscript
    of step 2 raises [TypeError]: the run ends before any call and the
    process with exit code 1. *)
Theorem non_object_pull_request (w : World) (g : Globals) (pr : json) :
  passes_filter (payload g) pr -> (forall d, pr <> JObj d) ->
  run w g = ([], Raised TypeError) /\ exit_code (result (run w g)) = 1.
Proof.
  intros Hf Hpr.
  assert (Hrun : run w g = ([], Raised TypeError)).
  { pass_filter Hf. destruct pr; cbn [py_getitem]; rewrite ?bind_raise;
      try reflexivity.
    exfalso. eapply Hpr. reflexivity. }
  rewrite Hrun. split; reflexivity.
Qed.

Lemma non_object_pull_request_witness :
  run (Sample.reviewing (inr "Fine. ✅ **APPROVE**"))
      (Sample.globals
         (JObj {[ "action" := JStr "opened"; "pull_request" := JNull ]}))
    = ([], Raised TypeError) /\
  exit_code
    (result (run (Sample.reviewing (inr "Fine. ✅ **APPROVE**"))
               (Sample.globals
                  (JObj {[ "action" := JStr "opened";
                           "pull_request" := JNull ]})))) = 1.
Proof.
  apply (non_object_pull_request _ _ JNull).
  - exists {[ "action" := JStr "opened"; "pull_request" := JNull ]}, "opened".
    repeat split; try apply list_elem_of_here; vm_compute; reflexivity.
  - intros d. discriminate.
Defined.

(** X20. A run reads the event only through its [action] and through the
    entries [diff_url], [comments_url], [statuses_url], [title] and [user]
    of its [pull_request]: two events that agree on these give the same
    calls and the same outcome, whatever else they carry. *)
Theorem run_reads_only (w : World) (g g' : Globals)
    (ev ev' d d' : gmap pystr json) :
  payload g = JObj ev -> payload g' = JObj ev' ->
  GITHUB_TOKEN g = GITHUB_TOKEN g' ->
  ev !! "action" = ev' !! "action" ->
  ev !! "pull_request" = Some (JObj d) ->
  ev' !! "pull_request" = Some (JObj d') ->
  (forall key,
     key ∈ ["diff_url"; "comments_url"; "statuses_url"; "title"; "user"] ->
     d !! key = d' !! key) ->
  run w g = run w g'.
Proof.
  intros Hp Hp' Htok Ha Hpr Hpr' Hd.
  destruct g as [p tok key], g' as [p' tok' key'].
  cbn [payload GITHUB_TOKEN] in *. subst p p' tok'.
  unfold run, get_pr_diff, post_comment, update_pr_status, diff_headers,
    json_headers.
  cbn [payload GITHUB_TOKEN py_in py_get py_getitem].
  rewrite Hpr, Hpr', Ha.
  rewrite !bind_ret. cbn [py_getitem].
  rewrite <- (Hd "diff_url"), <- (Hd "comments_url"),
    <- (Hd "statuses_url"), <- (Hd "title"), <- (Hd "user");
    [reflexivity|..];
    repeat first [apply list_elem_of_here | apply list_elem_of_further].
Qed.

Lemma run_reads_only_witness :
  run (Sample.reviewing (inr "Fine. ✅ **APPROVE**")) Sample.opened =
  run (Sample.reviewing (inr "Fine. ✅ **APPROVE**"))
    (Sample.globals (JObj SampleFault.verbose_event)).
Proof.
  apply (run_reads_only _ Sample.opened
           (Sample.globals (JObj SampleFault.verbose_event))
           {[ "action" := JStr "opened"; "pull_request" := Sample.pr ]}
           SampleFault.verbose_event
           {[ "diff_url" := JStr "https://host/pr/1.diff";
              "comments_url" := JStr "https://host/pr/1/comments";
              "statuses_url" := JStr "https://host/statuses/abc";
              "title" := JStr "Fix parser";
              "user" := JObj {[ "login" := JStr "alice" ]} ]}
           {[ "diff_url" := JStr "https://host/pr/1.diff";
              "comments_url" := JStr "https://host/pr/1/comments";
              "statuses_url" := JStr "https://host/statuses/abc";
              "title" := JStr "Fix parser";
              "draft" := JBool false;
              "user" := JObj {[ "login" := JStr "alice" ]} ]}).
  - reflexivity.
  - reflexivity.
  - reflexivity.
  - vm_compute. reflexivity.
  - vm_compute. reflexivity.
  - vm_compute. reflexivity.
  - intros key Hin. apply list_elem_of_In in Hin. cbn [In] in Hin.
    destruct Hin as [<-|[<-|[<-|[<-|[<-|[]]]]]]; vm_compute; reflexivity.
Defined.
